(** * The Optimod SNMP to EmberPlus gateway ([index.js])

    A shallow embedding of the gateway: the JavaScript built-ins it relies on
    ([parseInt], [toString], [Date.prototype.toISOString], [||]), the
    boundary to [net-snmp] (varbinds and their error markers), the Ember tree
    it publishes, the response callback of [pollOptimod], and the timer that
    drives it.  Console logging has no effect on the tree and is left out. *)

From Stdlib Require Import ZArith List String Ascii Bool Lia.
Import ListNotations.

Local Open Scope string_scope.
Local Open Scope Z_scope.

(** ** JavaScript values and built-ins *)

Module Js.

(** The values that reach the program.  A JavaScript string is a sequence
    of code units; the strings met here (decimal numbers, ISO timestamps,
    device texts) are modelled with code units below 256.  A [Buffer] is
    identified with the text its [toString()] decodes to.  A number is an
    integer: [net-snmp] reads Integer, Counter, Gauge and TimeTicks values
    as 32-bit integers, for which the decimal rendering below is the one
    of [Number::toString]. *)
Inductive Value : Type :=
| Undefined
| Null
| Bool (b : bool)
| Number (z : Z)
| Str (s : string)
| Buffer (text : string).

Inductive Exception : Type :=
| TypeError (msg : string).

(** *** [Number::toString] on integers *)

Definition digitChar (d : Z) : ascii := ascii_of_N (48 + Z.to_N d).

Fixpoint decimalDigits (fuel : nat) (n : Z) (acc : string) : string :=
  match fuel with
  | O => acc
  | S fuel' =>
      let acc' := String (digitChar (n mod 10)) acc in
      if n <? 10 then acc' else decimalDigits fuel' (n / 10) acc'
  end.

Definition digitsFuel (n : Z) : nat := S (Z.to_nat (Z.log2 n)).

Definition numberToString (z : Z) : string :=
  if z <? 0
  then String "-" (decimalDigits (digitsFuel (- z)) (- z) "")
  else decimalDigits (digitsFuel z) z "".

(** *** The abstract operation [ToString] *)

Definition ToString (v : Value) : string :=
  match v with
  | Undefined => "undefined"
  | Null => "null"
  | Bool true => "true"
  | Bool false => "false"
  | Number z => numberToString z
  | Str s => s
  | Buffer text => text
  end.

(** *** The method call [value.toString()]: [undefined] and [null] have no
    properties, so the call raises a [TypeError]. *)

Definition toStringMethod (v : Value) : Exception + string :=
  match v with
  | Undefined => inl (TypeError "Cannot read properties of undefined")
  | Null => inl (TypeError "Cannot read properties of null")
  | _ => inr (ToString v)
  end.

(** *** [parseInt(value)] with no radix argument.  [None] is [NaN].  The
    result is the integer that the digits denote.  JavaScript holds it as a
    Number: that is the same integer when its magnitude is at most 2^53,
    and beyond that the nearest Number, whose magnitude is 2^53 at least,
    so comparing the result with 0 or 1 and clamping it to a range below
    2^53 give what the code gives for every input. *)

Definition isWhiteSpace (c : ascii) : bool :=
  let n := N_of_ascii c in
  ((9 <=? n) && (n <=? 13) || (n =? 32) || (n =? 160))%N.

Fixpoint trimStart (s : string) : string :=
  match s with
  | String c rest => if isWhiteSpace c then trimStart rest else s
  | EmptyString => s
  end.

Definition digitValue (c : ascii) : option Z :=
  let n := Z.of_N (N_of_ascii c) in
  if (48 <=? n) && (n <=? 57) then Some (n - 48)
  else if (97 <=? n) && (n <=? 122) then Some (n - 87)
  else if (65 <=? n) && (n <=? 90) then Some (n - 55)
  else None.

(** The longest prefix of radix-[R] digits; [acc] is [None] until the first
    digit has been read. *)
Fixpoint parseDigits (R : Z) (s : string) (acc : option Z) : option Z :=
  match s with
  | EmptyString => acc
  | String c rest =>
      match digitValue c with
      | Some d =>
          if d <? R
          then parseDigits R rest
                 (Some (R * match acc with Some a => a | None => 0 end + d))
          else acc
      | None => acc
      end
  end.

Definition hasHexPrefix (s : string) : bool :=
  match s with
  | String c0 (String c1 _) =>
      Ascii.eqb c0 "0" && (Ascii.eqb c1 "x" || Ascii.eqb c1 "X")
  | _ => false
  end.

Definition dropTwo (s : string) : string :=
  match s with
  | String _ (String _ rest) => rest
  | _ => s
  end.

(** Steps of [parseInt (string, radix)] for an undefined radix: trim
    leading white space, read a sign, strip a [0x] prefix and switch to
    radix 16, then read the longest prefix of digits. *)
Definition parseIntString (inputString : string) : option Z :=
  let S0 := trimStart inputString in
  let '(sign, S1) :=
    match S0 with
    | String c rest =>
        if Ascii.eqb c "-" then (-1, rest)
        else if Ascii.eqb c "+" then (1, rest)
        else (1, S0)
    | EmptyString => (1, S0)
    end in
  let '(R, S2) := if hasHexPrefix S1 then (16, dropTwo S1) else (10, S1) in
  match parseDigits R S2 None with
  | Some mathInt => Some (sign * mathInt)
  | None => None
  end.

Definition parseInt (v : Value) : option Z := parseIntString (ToString v).

(** [x === 1] for [x] the result of [parseInt]: [NaN] equals nothing. *)
Definition strictEq1 (x : option Z) : bool :=
  match x with
  | Some n => n =? 1
  | None => false
  end.

(** [x || d] for [x] the result of [parseInt]: [NaN] and zero are falsy. *)
Definition orDefault (x : option Z) (d : Z) : Z :=
  match x with
  | Some 0 => d
  | Some n => n
  | None => d
  end.

(** *** [new Date(t).toISOString()], [t] in milliseconds since the epoch *)

Fixpoint zeros (k : nat) (s : string) : string :=
  match k with
  | O => s
  | S k' => String "0" (zeros k' s)
  end.

Definition padStart (width : nat) (s : string) : string :=
  zeros (width - String.length s) s.

Definition pad (width : nat) (n : Z) : string := padStart width (numberToString n).

Definition msPerDay : Z := 86400000.

(** Year, month and day of the day number [days] counted from 1970-01-01
    in the proleptic Gregorian calendar. *)
Definition civilFromDays (days : Z) : Z * Z * Z :=
  let z := days + 719468 in
  let era := z / 146097 in
  let doe := z - era * 146097 in
  let yoe := (doe - doe / 1460 + doe / 36524 - doe / 146096) / 365 in
  let doy := doe - (365 * yoe + yoe / 4 - yoe / 100) in
  let mp := (5 * doy + 2) / 153 in
  let d := doy - (153 * mp + 2) / 5 + 1 in
  let m := if mp <? 10 then mp + 3 else mp - 9 in
  let y := yoe + era * 400 + (if m <=? 2 then 1 else 0) in
  (y, m, d).

Definition yearString (y : Z) : string :=
  if (0 <=? y) && (y <=? 9999) then pad 4 y
  else if y <? 0 then String "-" (pad 6 (- y))
  else String "+" (pad 6 y).

Definition toISOString (t : Z) : string :=
  let '(y, m, d) := civilFromDays (t / msPerDay) in
  let r := t mod msPerDay in
  yearString y ++ "-" ++ pad 2 m ++ "-" ++ pad 2 d ++ "T"
    ++ pad 2 (r / 3600000) ++ ":" ++ pad 2 (r / 60000 mod 60) ++ ":"
    ++ pad 2 (r / 1000 mod 60) ++ "." ++ pad 3 (r mod 1000) ++ "Z".

(** *** Strings of decimal digits *)

Definition isDecimalChar (c : ascii) : bool :=
  let n := N_of_ascii c in ((48 <=? n) && (n <=? 57))%N.

Fixpoint allDecimal (s : string) : bool :=
  match s with
  | EmptyString => true
  | String c rest => isDecimalChar c && allDecimal rest
  end.

End Js.

(** ** The boundary to [net-snmp] *)

Module Snmp.

Inductive ObjectType : Type :=
| Boolean | Integer | BitString | OctetString | Null | OID | IpAddress
| Counter | Gauge | TimeTicks | Opaque | Counter64
| NoSuchObject | NoSuchInstance | EndOfMibView.

Record Varbind : Type := mkVarbind {
  oid : string;
  type : ObjectType;
  value : Js.Value
}.

(** [snmp.isVarbindError]: the three exception markers of SNMPv2. *)
Definition isVarbindError (varbind : Varbind) : bool :=
  match type varbind with
  | NoSuchObject | NoSuchInstance | EndOfMibView => true
  | _ => false
  end.

End Snmp.

(** ** The Ember model of [emberplus-connection] *)

Module Ember.

Inductive ParameterType : Type := ParameterType_String | ParameterType_Boolean.

Inductive ParameterAccess : Type := Read.

Record ParameterImpl : Type := mkParameterImpl {
  parameterType : ParameterType;
  identifier : string;
  description : string;
  value : Js.Value;
  access : ParameterAccess
}.

Record EmberNodeImpl : Type := mkEmberNodeImpl {
  nodeIdentifier : string;
  nodeDescription : string;
  isOnline : bool
}.

(** [new NumberedTreeNodeImpl(number, new ParameterImpl(...))]: a parameter
    node.  These are the objects the program keeps in variables and
    mutates through [server.update]. *)
Record ParameterNode : Type := mkParameterNode {
  number : Z;
  contents : ParameterImpl
}.

(** The effect of [server.update(node, { value: v })] on the node: the
    [value] property of its contents is overwritten, nothing else. *)
Definition setValue (v : Js.Value) (node : ParameterNode) : ParameterNode :=
  let c := contents node in
  {| number := number node;
     contents := {| parameterType := parameterType c;
                    identifier := identifier c;
                    description := description c;
                    value := v;
                    access := access c |} |}.

(** A value of the JavaScript type that the parameter type declares. *)
Definition hasType (t : ParameterType) (v : Js.Value) : bool :=
  match t, v with
  | ParameterType_String, Js.Str _ => true
  | ParameterType_Boolean, Js.Bool _ => true
  | _, _ => false
  end.

Section Tree.

(** [Ref] names the shared parameter node objects. *)
Variable Ref : Type.

(** A group node owns its children, keyed as in the object literal; a
    parameter node is held by reference. *)
#[warnings="-register-all"]
Inductive Element : Type :=
| NumberedTreeNodeImpl (number : Z) (contents : EmberNodeImpl)
                       (children : list (Z * Element))
| Shared (ref : Ref).

Inductive Kind : Type :=
| GroupKind
| ParameterKind (t : ParameterType).

Record Entry : Type := mkEntry {
  path : list Z;
  label : string;
  text : string;
  kind : Kind;
  current : option Js.Value
}.

Variable deref : Ref -> ParameterNode.

(** The elements of a tree with their paths (the numbers from the root
    down), in document order, as a client that walks the tree reads
    them. *)
Fixpoint entries (parent : list Z) (e : Element) : list Entry :=
  match e with
  | NumberedTreeNodeImpl n c children =>
      let here := (parent ++ [n])%list in
      mkEntry here (nodeIdentifier c) (nodeDescription c) GroupKind None
      :: (fix walk (l : list (Z * Element)) : list Entry :=
            match l with
            | [] => []
            | (_, child) :: rest => (entries here child ++ walk rest)%list
            end) children
  | Shared r =>
      let node := deref r in
      [mkEntry (parent ++ [number node])%list (identifier (contents node))
               (description (contents node))
               (ParameterKind (parameterType (contents node)))
               (Some (value (contents node)))]
  end.

Fixpoint rootEntries (tree : list (Z * Element)) : list Entry :=
  match tree with
  | [] => []
  | (_, e) :: rest => (entries [] e ++ rootEntries rest)%list
  end.

(** Every element sits under the key that equals its own number, so the
    path by keys and the path by numbers agree. *)
Fixpoint keyed (key : Z) (e : Element) : bool :=
  match e with
  | NumberedTreeNodeImpl n _ children =>
      (key =? n)
      && (fix all (l : list (Z * Element)) : bool :=
            match l with
            | [] => true
            | (k, child) :: rest => keyed k child && all rest
            end) children
  | Shared r => key =? number (deref r)
  end.

End Tree.

Arguments NumberedTreeNodeImpl {Ref} number contents children.
Arguments Shared {Ref} ref.
Arguments entries {Ref} deref parent e.
Arguments rootEntries {Ref} deref tree.
Arguments keyed {Ref} deref key e.

(** The shape of an entry: everything but the current value. *)
Definition shapeOf (e : Entry) : list Z * string * string * Kind :=
  (path e, label e, text e, kind e).

End Ember.

(** ** [index.js] *)

Module Bridge.

Import Ember.

(** *** 1. Environment and SNMP settings *)

(** [process.env]: a variable is a string or is not set. *)
Record Env : Type := mkEnv {
  env_OPTIMOD_ADDRESS : option string;
  env_SNMP_COMMUNITY : option string;
  env_POLL_INTERVAL_MS : option string;
  env_EMBERPLUS_PORT : option string
}.

Definition envValue (x : option string) : Js.Value :=
  match x with
  | Some s => Js.Str s
  | None => Js.Undefined
  end.

Definition POLL_INTERVAL_MS (env : Env) : Z :=
  Js.orDefault (Js.parseInt (envValue (env_POLL_INTERVAL_MS env))) 5000.

Definition EMBERPLUS_PORT (env : Env) : Z :=
  Js.orDefault (Js.parseInt (envValue (env_EMBERPLUS_PORT env))) 9000.

(** The object literal [oids]: its own string keys are enumerated in
    insertion order by [Object.keys] and [Object.values]. *)
Definition oids : list (string * string) :=
  [ ("softwareVersion", "1.3.6.1.4.1.41877.5.1.1");
    ("stationName", "1.3.6.1.4.1.41877.5.1.2");
    ("inputAnalog", "1.3.6.1.4.1.41877.5.3.1");
    ("inputDigital", "1.3.6.1.4.1.41877.5.3.2");
    ("analogInputSilent", "1.3.6.1.4.1.41877.5.3.3");
    ("aesInputSilent", "1.3.6.1.4.1.41877.5.3.4");
    ("aesInputError", "1.3.6.1.4.1.41877.5.3.5");
    ("powerSupply1Status", "1.3.6.1.4.1.41877.5.3.6");
    ("powerSupply2Status", "1.3.6.1.4.1.41877.5.3.7") ].

Definition Object_keys (o : list (string * string)) : list string := map fst o.
Definition Object_values (o : list (string * string)) : list string := map snd o.

(** *** 2. The Ember tree *)

(** The parameter node objects, by the variable that holds each. *)
Inductive ParamNode : Type :=
| softwareVersionParameterNode
| stationNameParameterNode
| inputAnalogParameterNode
| inputDigitalParameterNode
| analogInputSilentParameterNode
| aesInputSilentParameterNode
| aesInputErrorParameterNode
| powerSupply1StatusParameterNode
| powerSupply2StatusParameterNode
| connectedParameterNode
| lastPollParameterNode.

Definition ParamNode_eq_dec (a b : ParamNode) : {a = b} + {a <> b}.
Proof. decide equality. Defined.

(** The store: the current state of every parameter node object, one cell
    for each variable, and the updates the server was given so far, in
    order. *)
Record Store : Type := mkStore {
  softwareVersionParameter : ParameterNode;
  stationNameParameter : ParameterNode;
  inputAnalogParameter : ParameterNode;
  inputDigitalParameter : ParameterNode;
  analogInputSilentParameter : ParameterNode;
  aesInputSilentParameter : ParameterNode;
  aesInputErrorParameter : ParameterNode;
  powerSupply1StatusParameter : ParameterNode;
  powerSupply2StatusParameter : ParameterNode;
  connectedParameter : ParameterNode;
  lastPollParameter : ParameterNode;
  updates : list (ParamNode * Js.Value)
}.

(** Reading a variable: [store node] is the state of the object. *)
Definition lookup (store : Store) (node : ParamNode) : ParameterNode :=
  match node with
  | softwareVersionParameterNode => softwareVersionParameter store
  | stationNameParameterNode => stationNameParameter store
  | inputAnalogParameterNode => inputAnalogParameter store
  | inputDigitalParameterNode => inputDigitalParameter store
  | analogInputSilentParameterNode => analogInputSilentParameter store
  | aesInputSilentParameterNode => aesInputSilentParameter store
  | aesInputErrorParameterNode => aesInputErrorParameter store
  | powerSupply1StatusParameterNode => powerSupply1StatusParameter store
  | powerSupply2StatusParameterNode => powerSupply2StatusParameter store
  | connectedParameterNode => connectedParameter store
  | lastPollParameterNode => lastPollParameter store
  end.

Coercion lookup : Store >-> Funclass.

Definition tabulate (f : ParamNode -> ParameterNode) (log : list (ParamNode * Js.Value))
  : Store :=
  {| softwareVersionParameter := f softwareVersionParameterNode;
     stationNameParameter := f stationNameParameterNode;
     inputAnalogParameter := f inputAnalogParameterNode;
     inputDigitalParameter := f inputDigitalParameterNode;
     analogInputSilentParameter := f analogInputSilentParameterNode;
     aesInputSilentParameter := f aesInputSilentParameterNode;
     aesInputErrorParameter := f aesInputErrorParameterNode;
     powerSupply1StatusParameter := f powerSupply1StatusParameterNode;
     powerSupply2StatusParameter := f powerSupply2StatusParameterNode;
     connectedParameter := f connectedParameterNode;
     lastPollParameter := f lastPollParameterNode;
     updates := log |}.


Definition newParameter (t : ParameterType) (id descr : string) (v : Js.Value)
  : ParameterNode :=
  mkParameterNode 1 (mkParameterImpl t id descr v Read).

(** The parameter nodes as constructed at load time. *)
Definition initialStore : Store := tabulate (fun node : ParamNode =>
  match node with
  | softwareVersionParameterNode =>
      newParameter ParameterType_String "Software Version" "Firmware version" (Js.Str "")
  | stationNameParameterNode =>
      newParameter ParameterType_String "Station Name" "Station name" (Js.Str "")
  | inputAnalogParameterNode =>
      newParameter ParameterType_Boolean "Input Analog" "Analog Input active status"
                   (Js.Bool false)
  | inputDigitalParameterNode =>
      newParameter ParameterType_Boolean "Input Digital" "Digital Input active status"
                   (Js.Bool false)
  | analogInputSilentParameterNode =>
      newParameter ParameterType_Boolean "Analog Input Silent" "Analog input silent status"
                   (Js.Bool false)
  | aesInputSilentParameterNode =>
      newParameter ParameterType_Boolean "AES Input Silent" "AES input silent status"
                   (Js.Bool false)
  | aesInputErrorParameterNode =>
      newParameter ParameterType_Boolean "AES Input Error" "AES input error status"
                   (Js.Bool false)
  | powerSupply1StatusParameterNode =>
      newParameter ParameterType_Boolean "Power Supply 1" "Power Supply 1 status"
                   (Js.Bool false)
  | powerSupply2StatusParameterNode =>
      newParameter ParameterType_Boolean "Power Supply 2" "Power Supply 2 status"
                   (Js.Bool false)
  | connectedParameterNode =>
      newParameter ParameterType_Boolean "Optimod Connected"
                   "Indicates if the Optimod device is reachable via SNMP" (Js.Bool false)
  | lastPollParameterNode =>
      newParameter ParameterType_String "Last Poll"
                   "Timestamp of the last successful SNMP poll" (Js.Str "")
  end) [].

Definition group (n : Z) (id descr : string) (children : list (Z * Element ParamNode))
  : Element ParamNode :=
  NumberedTreeNodeImpl n (mkEmberNodeImpl id descr true) children.

Definition deviceInfoSubtree : list (Z * Element ParamNode) :=
  [ (1, group 1 "Software Version" "Firmware version"
          [(1, Shared softwareVersionParameterNode)]);
    (2, group 2 "Station Name" "Station name"
          [(1, Shared stationNameParameterNode)]) ].

Definition monitoringSubtree : list (Z * Element ParamNode) :=
  [ (1, group 1 "Input Analog" "Analog Input active status"
          [(1, Shared inputAnalogParameterNode)]);
    (2, group 2 "Input Digital" "Digital Input active status"
          [(1, Shared inputDigitalParameterNode)]);
    (3, group 3 "Analog Input Silent" "Analog input silent status"
          [(1, Shared analogInputSilentParameterNode)]);
    (4, group 4 "AES Input Silent" "AES input silent status"
          [(1, Shared aesInputSilentParameterNode)]);
    (5, group 5 "AES Input Error" "AES input error status"
          [(1, Shared aesInputErrorParameterNode)]);
    (6, group 6 "Power Supply 1" "Power Supply 1 status"
          [(1, Shared powerSupply1StatusParameterNode)]);
    (7, group 7 "Power Supply 2" "Power Supply 2 status"
          [(1, Shared powerSupply2StatusParameterNode)]) ].

Definition statusSubtree : list (Z * Element ParamNode) :=
  [ (1, group 1 "Connected" "Optimod connection status"
          [(1, Shared connectedParameterNode)]);
    (2, group 2 "Last Poll" "Timestamp of last successful SNMP poll"
          [(1, Shared lastPollParameterNode)]) ].

Definition tree : list (Z * Element ParamNode) :=
  [ (1, group 1 "Optimod" "Orban Optimod SNMP to EmberPlus Gateway"
          [ (1, group 1 "Device Info" "Device Information" deviceInfoSubtree);
            (2, group 2 "Monitoring" "Monitoring Parameters" monitoringSubtree);
            (3, group 3 "Status" "Connection status" statusSubtree) ]) ].

(** What the server publishes: the tree read through the store. *)
Definition published (store : Store) : list Entry := rootEntries store tree.

Definition shape (store : Store) : list (list Z * string * string * Kind) :=
  map shapeOf (published store).

(** The entries below the element at [prefix]. *)
Fixpoint isPrefix (p q : list Z) : bool :=
  match p, q with
  | [], _ => true
  | a :: p', b :: q' => (a =? b) && isPrefix p' q'
  | _, _ => false
  end.

Definition parametersUnder (prefix : list Z) (sh : list (list Z * string * string * Kind))
  : list string :=
  map (fun '(_, label, _, _) => label)
      (filter (fun '(path, _, _, kind) =>
                 isPrefix prefix path
                 && match kind with ParameterKind _ => true | GroupKind => false end)
              sh).

Definition pathsOf (sh : list (list Z * string * string * Kind)) : list (list Z) :=
  map (fun '(path, _, _, _) => path) sh.

(** *** 4. SNMP polling *)

(** Statements run against the store; an exception ends them and keeps
    the writes made so far. *)
Definition Cmd (A : Type) : Type := Store -> Store * (Js.Exception + A).

Definition ret {A} (a : A) : Cmd A := fun store => (store, inr a).

Definition throw {A} (e : Js.Exception) : Cmd A := fun store => (store, inl e).

Definition bind {A B} (c : Cmd A) (k : A -> Cmd B) : Cmd B := fun store =>
  match c store with
  | (store', inr a) => k a store'
  | (store', inl e) => (store', inl e)
  end.

Definition lift {A} (r : Js.Exception + A) : Cmd A := fun store => (store, r).

Notation "x <- c ;; k" := (bind c (fun x => k))
  (at level 61, c at next level, right associativity).
Notation "c ;; k" := (bind c (fun _ => k))
  (at level 61, right associativity).

(** [server.update(node, { value: v })]: the node's value is overwritten
    and the update is on record. *)
Definition server_update (node : ParamNode) (v : Js.Value) : Cmd unit := fun store =>
  (tabulate (fun n => if ParamNode_eq_dec n node then setValue v (store node) else store n)
            (updates store ++ [(node, v)])%list,
   inr tt).

Definition valueOf (store : Store) (node : ParamNode) : Js.Value :=
  value (contents (store node)).

(** The body of [keys.forEach((key, index) => ...)]. *)
Definition eachKey (varbinds : list Snmp.Varbind) (key : string) (index : nat) : Cmd unit :=
  match nth_error varbinds index with
  | None => throw (Js.TypeError "Cannot read properties of undefined (reading 'type')")
  | Some varbind =>
      if Snmp.isVarbindError varbind then ret tt
      else
        let value := Snmp.value varbind in
        if String.eqb key "softwareVersion" then
          s <- lift (Js.toStringMethod value) ;;
          server_update softwareVersionParameterNode (Js.Str s)
        else if String.eqb key "stationName" then
          s <- lift (Js.toStringMethod value) ;;
          server_update stationNameParameterNode (Js.Str s)
        else
          let boolVal := Js.strictEq1 (Js.parseInt value) in
          if String.eqb key "inputAnalog" then
            server_update inputAnalogParameterNode (Js.Bool boolVal)
          else if String.eqb key "inputDigital" then
            server_update inputDigitalParameterNode (Js.Bool boolVal)
          else if String.eqb key "analogInputSilent" then
            server_update analogInputSilentParameterNode (Js.Bool boolVal)
          else if String.eqb key "aesInputSilent" then
            server_update aesInputSilentParameterNode (Js.Bool boolVal)
          else if String.eqb key "aesInputError" then
            server_update aesInputErrorParameterNode (Js.Bool boolVal)
          else if String.eqb key "powerSupply1Status" then
            server_update powerSupply1StatusParameterNode (Js.Bool boolVal)
          else if String.eqb key "powerSupply2Status" then
            server_update powerSupply2StatusParameterNode (Js.Bool boolVal)
          else ret tt
  end.

Fixpoint forEach (f : string -> nat -> Cmd unit) (keys : list string) (index : nat)
  : Cmd unit :=
  match keys with
  | [] => ret tt
  | key :: rest => f key index ;; forEach f rest (S index)
  end.

(** The callback that [pollOptimod] passes to [session.get], run at the
    instant [now] (what [new Date()] reads). *)
Definition onGet (now : Z) (error : option string) (varbinds : list Snmp.Varbind)
  : Cmd unit :=
  match error with
  | Some _ =>
      server_update connectedParameterNode (Js.Bool false)
  | None =>
      server_update connectedParameterNode (Js.Bool true) ;;
      server_update lastPollParameterNode (Js.Str (Js.toISOString now)) ;;
      forEach (eachKey varbinds) (Object_keys oids) 0
  end.

(** *** The interval timer and the event loop *)

(** [setInterval(f, after)]: Node runs the timer with a delay of 1 when
    [after] is not within 1 .. 2^31-1. *)
Definition timerDelay (after : Z) : Z :=
  if (1 <=? after) && (after <=? 2147483647) then after else 1.

(** One polling cycle: the instant [pollOptimod] ran, the OIDs it asked
    for, and the instant its callback ran, once it has. *)
Record Cycle : Type := mkCycle {
  started : Z;
  oidList : list string;
  completed : option Z
}.

(** [pollOptimod()] at instant [t]: one [session.get] for all the OIDs, in
    the order of [Object.values(oids)], with [onGet] as its callback. *)
Definition pollOptimod (t : Z) : Cycle := mkCycle t (Object_values oids) None.

Record Process : Type := mkProcess {
  store : Store;
  clock : Z;
  timerRepeat : Z;
  timerDue : Z;
  cycles : list Cycle;
  crashed : bool
}.

(** What the event loop dispatches: the interval timer fires and
    [pollOptimod] runs, or the callback of cycle [k] is called with the
    outcome of its request.  Each runs to completion at its instant. *)
Inductive Event : Type :=
| Tick (t : Z)
| Response (k : nat) (t : Z) (error : option string) (varbinds : list Snmp.Varbind).

(** The process once the module has been loaded at instant [t0]: the
    tree is built, the server initialised and the timer armed. *)
Definition boot (env : Env) (t0 : Z) : Process :=
  let delay := timerDelay (POLL_INTERVAL_MS env) in
  {| store := initialStore;
     clock := t0;
     timerRepeat := delay;
     timerDue := t0 + delay;
     cycles := [];
     crashed := false |}.

Fixpoint complete (k : nat) (t : Z) (cs : list Cycle) : option (list Cycle) :=
  match cs, k with
  | c :: rest, O =>
      match completed c with
      | None => Some (mkCycle (started c) (oidList c) (Some t) :: rest)
      | Some _ => None
      end
  | c :: rest, S k' => option_map (cons c) (complete k' t rest)
  | [], _ => None
  end.

Definition isThrow {A} (r : Js.Exception + A) : bool :=
  match r with inl _ => true | inr _ => false end.

(** One event.  [None]: the event cannot happen in this state: time does
    not run backwards, a timer does not fire before it is due, a callback
    is called once, for a request that was issued, and an uncaught
    exception has ended the process. *)
Definition step (p : Process) (e : Event) : option Process :=
  if crashed p then None
  else
    match e with
    | Tick t =>
        if (clock p <=? t) && (timerDue p <=? t)
        then Some {| store := store p;
                     clock := t;
                     timerRepeat := timerRepeat p;
                     timerDue := t + timerRepeat p;
                     cycles := (cycles p ++ [pollOptimod t])%list;
                     crashed := false |}
        else None
    | Response k t error varbinds =>
        if clock p <=? t
        then match complete k t (cycles p) with
             | Some cycles' =>
                 let '(store', r) := onGet t error varbinds (store p) in
                 Some {| store := store';
                         clock := t;
                         timerRepeat := timerRepeat p;
                         timerDue := timerDue p;
                         cycles := cycles';
                         crashed := isThrow r |}
             | None => None
             end
        else None
    end.

Fixpoint run (p : Process) (trace : list Event) : option Process :=
  match trace with
  | [] => Some p
  | e :: rest =>
      match step p e with
      | Some p' => run p' rest
      | None => None
      end
  end.

Definition inFlight (p : Process) : nat :=
  List.length (filter (fun c => match completed c with None => true | Some _ => false end)
                      (cycles p)).

Definition startOf (p : Process) (k : nat) : option Z :=
  option_map started (nth_error (cycles p) k).

Definition completionOf (p : Process) (k : nat) : option Z :=
  match nth_error (cycles p) k with
  | Some c => completed c
  | None => None
  end.

(** *** The quantities *)

(** The leaf of each key of [oids]: the parameter node that the callback
    updates for it, in the order of the keys. *)
Definition leafOf : list (string * ParamNode) :=
  [ ("softwareVersion", softwareVersionParameterNode);
    ("stationName", stationNameParameterNode);
    ("inputAnalog", inputAnalogParameterNode);
    ("inputDigital", inputDigitalParameterNode);
    ("analogInputSilent", analogInputSilentParameterNode);
    ("aesInputSilent", aesInputSilentParameterNode);
    ("aesInputError", aesInputErrorParameterNode);
    ("powerSupply1Status", powerSupply1StatusParameterNode);
    ("powerSupply2Status", powerSupply2StatusParameterNode) ].

(** The parameter type a node was declared with. *)
Definition declaredType (node : ParamNode) : ParameterType :=
  parameterType (contents (initialStore node)).

(** The decoding of a raw value for a leaf of type [t], as the callback
    computes it: [value.toString()], or [parseInt(value) === 1]. *)
Definition decode (t : ParameterType) (raw : Js.Value) : Js.Exception + Js.Value :=
  match t with
  | ParameterType_String =>
      match Js.toStringMethod raw with
      | inr s => inr (Js.Str s)
      | inl e => inl e
      end
  | ParameterType_Boolean => inr (Js.Bool (Js.strictEq1 (Js.parseInt raw)))
  end.

(** [store'] differs from [store] in the values of nodes at most. *)
Definition onlyValues (store store' : Store) : Prop :=
  forall node, store' node = setValue (valueOf store' node) (store node).

(** The types the callback relies on: those of the declarations. *)
Definition declared (store : Store) : Prop :=
  forall node, parameterType (contents (store node)) = declaredType node.

(** Every node holds a value of the type it declares. *)
Definition wellTyped (store : Store) : Prop :=
  forall node,
    hasType (parameterType (contents (store node))) (valueOf store node) = true.

(** Every update gave a node a value of the type the node was declared
    with. *)
Definition typedUpdates (store : Store) : Prop :=
  Forall (fun u => hasType (declaredType (fst u)) (snd u) = true) (updates store).

Definition Typed (store : Store) : Prop :=
  declared store /\ wellTyped store /\ typedUpdates store.

(** *** Properties of a process *)

(** No cycle starts before the cycle before it has completed. *)
Definition cyclesNeverOverlap (p : Process) : Prop :=
  forall k s c, startOf p (S k) = Some s -> completionOf p k = Some c -> c <= s.

Definition atMostOneInFlight (p : Process) : Prop := (inFlight p <= 1)%nat.

(** Cycles start at least one timer delay apart, and the timer is due no
    sooner than one delay after the last start. *)
Definition Timeline (p : Process) : Prop :=
  1 <= timerRepeat p
  /\ (forall k s, startOf p k = Some s -> s + timerRepeat p <= timerDue p)
  /\ (forall k s1 s2, startOf p k = Some s1 -> startOf p (S k) = Some s2 ->
                      s1 + timerRepeat p <= s2).

(** The last-poll leaf is empty or shows an instant that is not in the
    future. *)
Definition Stamped (p : Process) : Prop :=
  valueOf (store p) lastPollParameterNode = Js.Str ""
  \/ exists t0, t0 <= clock p
                /\ valueOf (store p) lastPollParameterNode = Js.Str (Js.toISOString t0).

(** The variable is set and does not parse to a positive integer. *)
Definition invalidInterval (env : Env) : Prop :=
  exists s, env_POLL_INTERVAL_MS env = Some s
            /\ forall n, Js.parseIntString s = Some n -> n <= 0.

(** A process that has started polling has run at least one cycle. *)
Definition polls (p : Process) : Prop := cycles p <> [].

End Bridge.

(** ** Sample inputs *)

Module Samples.

Import Bridge.

Definition octets (key text : string) : Snmp.Varbind :=
  Snmp.mkVarbind key Snmp.OctetString (Js.Buffer text).

Definition integer (key : string) (z : Z) : Snmp.Varbind :=
  Snmp.mkVarbind key Snmp.Integer (Js.Number z).

Definition noSuchObject (key : string) : Snmp.Varbind :=
  Snmp.mkVarbind key Snmp.NoSuchObject Js.Null.

Definition null (key : string) : Snmp.Varbind :=
  Snmp.mkVarbind key Snmp.Null Js.Null.

(** A response in which every item is a reading. *)
Definition reading : list Snmp.Varbind :=
  [ octets "1.3.6.1.4.1.41877.5.1.1" "2.1.0";
    octets "1.3.6.1.4.1.41877.5.1.2" "";
    integer "1.3.6.1.4.1.41877.5.3.1" 1;
    integer "1.3.6.1.4.1.41877.5.3.2" 0;
    integer "1.3.6.1.4.1.41877.5.3.3" 2;
    integer "1.3.6.1.4.1.41877.5.3.4" (-1);
    octets "1.3.6.1.4.1.41877.5.3.5" "up";
    integer "1.3.6.1.4.1.41877.5.3.6" 1;
    integer "1.3.6.1.4.1.41877.5.3.7" 1 ].

(** The same response with an error marker in place of the fourth item. *)
Definition readingWithMarker : list Snmp.Varbind :=
  [ octets "1.3.6.1.4.1.41877.5.1.1" "2.1.0";
    octets "1.3.6.1.4.1.41877.5.1.2" "";
    integer "1.3.6.1.4.1.41877.5.3.1" 1;
    noSuchObject "1.3.6.1.4.1.41877.5.3.2";
    integer "1.3.6.1.4.1.41877.5.3.3" 2;
    integer "1.3.6.1.4.1.41877.5.3.4" (-1);
    octets "1.3.6.1.4.1.41877.5.3.5" "up";
    integer "1.3.6.1.4.1.41877.5.3.6" 1;
    integer "1.3.6.1.4.1.41877.5.3.7" 1 ].

Definition defaults : Env := mkEnv None None None None.

Definition withInterval (s : string) : Env := mkEnv None None (Some s) None.

(** A process started at instant 1000 with the default settings, polled
    twice; the second request is issued before the first is answered. *)
Definition overlapping : list Event :=
  [ Tick 6000; Tick 11000;
    Response 0 12000 None reading;
    Response 1 12500 None readingWithMarker ].

(** One cycle answered, then one cycle that times out. *)
Definition thenFailing : list Event :=
  [ Tick 6000; Response 0 6040 None reading;
    Tick 11000; Response 1 21000 (Some "RequestTimedOutError") [] ].

End Samples.

(** ** Reading the published tree by path *)

Module Published.

Import Ember Bridge.

(** The parameter nodes of an element with their paths: the numbers from
    the root down to the node, the node's own number last. *)
Fixpoint refPaths (store : Store) (parent : list Z) (e : Element ParamNode)
  : list (ParamNode * list Z) :=
  match e with
  | NumberedTreeNodeImpl n _ children =>
      let here := (parent ++ [n])%list in
      (fix walk (l : list (Z * Element ParamNode)) : list (ParamNode * list Z) :=
         match l with
         | [] => []
         | (_, child) :: rest => (refPaths store here child ++ walk rest)%list
         end) children
  | Shared r => [(r, (parent ++ [number (store r)])%list)]
  end.

Fixpoint rootRefPaths (store : Store) (t : list (Z * Element ParamNode))
  : list (ParamNode * list Z) :=
  match t with
  | [] => []
  | (_, e) :: rest => (refPaths store [] e ++ rootRefPaths store rest)%list
  end.

(** The path under which the tree holds a parameter node. *)
Definition pathTo (store : Store) (node : ParamNode) : option (list Z) :=
  option_map snd
    (find (fun rp => if ParamNode_eq_dec (fst rp) node then true else false)
          (rootRefPaths store tree)).

(** The value a client reads at a path of the published tree. *)
Definition publishedAt (store : Store) (p : list Z) : option Js.Value :=
  match find (fun e => if list_eq_dec Z.eq_dec (path e) p then true else false)
             (published store) with
  | Some e => current e
  | None => None
  end.

End Published.

(** ** Texts of settings *)

Module Settings.

(** A string ends the digits of a number before it: it is empty, or starts
    with a character that is neither a decimal digit nor [x] or [X]. *)
Definition stopsNumber (tail : string) : bool :=
  match tail with
  | EmptyString => true
  | String c _ =>
      negb (Js.isDecimalChar c) && negb (Ascii.eqb c "x") && negb (Ascii.eqb c "X")
  end.

End Settings.

(** ** More sample inputs *)

Module MoreSamples.

Import Bridge.

Definition withPort (s : string) : Env := mkEnv None None None (Some s).

(** An answer with an error marker for every Boolean key. *)
Definition markersOnly : list Snmp.Varbind :=
  [ Samples.octets "1.3.6.1.4.1.41877.5.1.1" "2.1.0";
    Samples.octets "1.3.6.1.4.1.41877.5.1.2" "Studio A";
    Samples.noSuchObject "1.3.6.1.4.1.41877.5.3.1";
    Samples.noSuchObject "1.3.6.1.4.1.41877.5.3.2";
    Samples.noSuchObject "1.3.6.1.4.1.41877.5.3.3";
    Samples.noSuchObject "1.3.6.1.4.1.41877.5.3.4";
    Samples.noSuchObject "1.3.6.1.4.1.41877.5.3.5";
    Samples.noSuchObject "1.3.6.1.4.1.41877.5.3.6";
    Samples.noSuchObject "1.3.6.1.4.1.41877.5.3.7" ].

(** A full answer whose software version is a Null value: a varbind of
    type Null, which is not an error marker, with the value [null]. *)
Definition nullSoftwareVersion : list Snmp.Varbind :=
  [ Samples.null "1.3.6.1.4.1.41877.5.1.1";
    Samples.octets "1.3.6.1.4.1.41877.5.1.2" "Studio A";
    Samples.integer "1.3.6.1.4.1.41877.5.3.1" 1;
    Samples.integer "1.3.6.1.4.1.41877.5.3.2" 0;
    Samples.integer "1.3.6.1.4.1.41877.5.3.3" 0;
    Samples.integer "1.3.6.1.4.1.41877.5.3.4" 0;
    Samples.integer "1.3.6.1.4.1.41877.5.3.5" 0;
    Samples.integer "1.3.6.1.4.1.41877.5.3.6" 1;
    Samples.integer "1.3.6.1.4.1.41877.5.3.7" 1 ].

(** An answer whose station name is a Null value. *)
Definition nullStationName : list Snmp.Varbind :=
  [ Samples.octets "1.3.6.1.4.1.41877.5.1.1" "2.1.0";
    Samples.null "1.3.6.1.4.1.41877.5.1.2";
    Samples.integer "1.3.6.1.4.1.41877.5.3.1" 1 ].

(** The sample reading with other OIDs and two more items. *)
Definition relabelled : list Snmp.Varbind :=
  (map (fun vb => Snmp.mkVarbind "0.0" (Snmp.type vb) (Snmp.value vb)) Samples.reading
   ++ [Samples.integer "0.0" 7; Samples.null "0.0"])%list.

End MoreSamples.

Example ex_numberToString :
  map Js.numberToString [0; 1; 7; 10; 2147483647; -1; -2147483648; 4294967295]
  = ["0"; "1"; "7"; "10"; "2147483647"; "-1"; "-2147483648"; "4294967295"].
Proof. vm_compute. reflexivity. Qed.

Example ex_parseInt :
  map Js.parseIntString
      ["1"; " 1"; "+1"; "-1"; "1abc"; "0x1"; "0X1f"; ""; "abc"; "-"; "0x"; "01"; "1.9"; "null"; "- 1"]
  = [Some 1; Some 1; Some 1; Some (-1); Some 1; Some 1; Some 31; None; None; None; None;
     Some 1; Some 1; None; None].
Proof. vm_compute. reflexivity. Qed.

Example ex_toISOString :
  map Js.toISOString [0; 1700000000000; 951782400000; -1; 253402300799999; 253402300800000]
  = ["1970-01-01T00:00:00.000Z"; "2023-11-14T22:13:20.000Z"; "2000-02-29T00:00:00.000Z";
     "1969-12-31T23:59:59.999Z"; "9999-12-31T23:59:59.999Z"; "+010000-01-01T00:00:00.000Z"].
Proof. vm_compute. reflexivity. Qed.

(** One answered cycle, then one that fails: the readings stay, the
    connected leaf falls back to [false], the timestamp is that of the
    answered cycle. *)
Example ex_thenFailing :
  option_map
    (fun p => map (Bridge.valueOf (Bridge.store p))
                  [Bridge.softwareVersionParameterNode; Bridge.inputAnalogParameterNode;
                   Bridge.inputDigitalParameterNode; Bridge.connectedParameterNode;
                   Bridge.lastPollParameterNode])
    (Bridge.run (Bridge.boot Samples.defaults 1000) Samples.thenFailing)
  = Some [Js.Str "2.1.0"; Js.Bool true; Js.Bool false; Js.Bool false;
          Js.Str "1970-01-01T00:00:06.040Z"].
Proof. vm_compute. reflexivity. Qed.

(** [POLL_INTERVAL_MS] for some settings of the variable. *)
Example ex_POLL_INTERVAL_MS :
  map (fun s => Bridge.POLL_INTERVAL_MS (Samples.withInterval s))
      ["250"; "0"; "-5"; "fast"; ""; "1e3"; "0x10"]
  = [250; 5000; -5; 5000; 5000; 1; 16].
Proof. vm_compute. reflexivity. Qed.


(** ** Facts about the built-ins *)

Section BuiltIns.

Import Js.

Lemma digitChar_code d : 0 <= d < 10 -> N_of_ascii (digitChar d) = (48 + Z.to_N d)%N.
Proof.
  intros Hd. unfold digitChar. apply N_ascii_embedding. lia.
Qed.

Lemma digitChar_decimal d : 0 <= d < 10 -> isDecimalChar (digitChar d) = true.
Proof.
  intros Hd. unfold isDecimalChar. rewrite digitChar_code by assumption.
  apply andb_true_iff; split; apply N.leb_le; lia.
Qed.

Lemma digitValue_digitChar d : 0 <= d < 10 -> digitValue (digitChar d) = Some d.
Proof.
  intros Hd. unfold digitValue. rewrite digitChar_code by assumption.
  replace (Z.of_N (48 + Z.to_N d)) with (48 + d) by lia.
  replace ((48 <=? 48 + d) && (48 + d <=? 57)) with true.
  - f_equal. lia.
  - symmetry. apply andb_true_iff; split; apply Z.leb_le; lia.
Qed.

Lemma decimalDigits_decimal fuel :
  forall n acc, 0 <= n -> allDecimal acc = true ->
                allDecimal (decimalDigits fuel n acc) = true.
Proof.
  induction fuel as [|fuel IH]; intros n acc Hn Hacc; simpl; [assumption|].
  assert (Hd : allDecimal (String (digitChar (n mod 10)) acc) = true).
  { simpl. rewrite Hacc, digitChar_decimal; [reflexivity|].
    apply Z.mod_pos_bound; lia. }
  destruct (n <? 10); [exact Hd|].
  apply IH; [apply Z.div_pos; lia | exact Hd].
Qed.

Lemma decimalDigits_nonempty fuel :
  forall n acc, decimalDigits (S fuel) n acc <> EmptyString.
Proof.
  induction fuel as [|fuel IH]; intros n acc.
  - simpl. destruct (n <? 10); discriminate.
  - change (decimalDigits (S (S fuel)) n acc)
      with (let acc' := String (digitChar (n mod 10)) acc in
            if n <? 10 then acc' else decimalDigits (S fuel) (n / 10) acc').
    cbv zeta. destruct (n <? 10); [discriminate | apply IH].
Qed.

(** Reading back the digits that were written gives the number. *)
Lemma parseDigits_decimalDigits fuel :
  forall n acc, 0 <= n < 2 ^ Z.of_nat (S fuel) ->
    parseDigits 10 (decimalDigits (S fuel) n acc) None = parseDigits 10 acc (Some n).
Proof.
  induction fuel as [|fuel IH]; intros n acc Hn.
  - assert (n < 10) by (change (2 ^ Z.of_nat 1) with 2 in Hn; lia).
    simpl decimalDigits.
    replace (n <? 10) with true by (symmetry; apply Z.ltb_lt; lia).
    cbn [parseDigits]. rewrite Z.mod_small by lia.
    rewrite digitValue_digitChar by lia.
    replace (n <? 10) with true by (symmetry; apply Z.ltb_lt; lia).
    reflexivity.
  - change (decimalDigits (S (S fuel)) n acc)
      with (let acc' := String (digitChar (n mod 10)) acc in
            if n <? 10 then acc' else decimalDigits (S fuel) (n / 10) acc').
    cbv zeta.
    assert (Hm : 0 <= n mod 10 < 10) by (apply Z.mod_pos_bound; lia).
    destruct (n <? 10) eqn:Hlt.
    + apply Z.ltb_lt in Hlt. cbn [parseDigits]. rewrite Z.mod_small by lia.
      rewrite digitValue_digitChar by lia.
      replace (n <? 10) with true by (symmetry; apply Z.ltb_lt; lia).
      reflexivity.
    + apply Z.ltb_ge in Hlt. rewrite IH.
      * cbn [parseDigits]. rewrite digitValue_digitChar by assumption.
        replace (n mod 10 <? 10) with true by (symmetry; apply Z.ltb_lt; lia).
        do 2 f_equal. pose proof (Z.div_mod n 10 ltac:(lia)). lia.
      * split; [apply Z.div_pos; lia|].
        apply Z.div_lt_upper_bound; [lia|].
        rewrite (Nat2Z.inj_succ (S fuel)), Z.pow_succ_r in Hn by lia. lia.
Qed.

Lemma digitsFuel_enough n : 0 <= n -> n < 2 ^ Z.of_nat (digitsFuel n).
Proof.
  intros Hn. unfold digitsFuel.
  rewrite Nat2Z.inj_succ, Z2Nat.id by apply Z.log2_nonneg.
  destruct (Z.eq_dec n 0) as [->|Hnz]; [reflexivity|].
  apply Z.log2_spec. lia.
Qed.

Lemma decimal_not_white c : isDecimalChar c = true -> isWhiteSpace c = false.
Proof.
  unfold isDecimalChar, isWhiteSpace. intros H.
  apply andb_true_iff in H as [H1 H2]. apply N.leb_le in H1, H2.
  repeat (apply orb_false_iff; split);
    [apply andb_false_iff; right; apply N.leb_gt; lia
    | apply N.eqb_neq; lia | apply N.eqb_neq; lia].
Qed.

Lemma decimal_not_char c (x : ascii) :
  isDecimalChar c = true -> isDecimalChar x = false -> Ascii.eqb c x = false.
Proof.
  intros Hc Hx. apply Ascii.eqb_neq. intros ->. congruence.
Qed.

(** On a non-empty string of decimal digits [parseInt] reads radix 10
    from the first character on. *)
Lemma parseIntString_decimal s :
  s <> EmptyString -> allDecimal s = true ->
  parseIntString s = parseDigits 10 s None.
Proof.
  intros Hne Hs. destruct s as [|c rest]; [congruence|].
  simpl in Hs. apply andb_true_iff in Hs as [Hc Hrest].
  unfold parseIntString. simpl trimStart. rewrite (decimal_not_white c Hc).
  rewrite (decimal_not_char c "-" Hc eq_refl), (decimal_not_char c "+" Hc eq_refl).
  assert (Hhex : hasHexPrefix (String c rest) = false).
  { destruct rest as [|c1 rest']; [reflexivity|]. simpl in Hrest.
    apply andb_true_iff in Hrest as [Hc1 _]. simpl.
    rewrite (decimal_not_char c1 "x" Hc1 eq_refl), (decimal_not_char c1 "X" Hc1 eq_refl).
    apply andb_false_r. }
  rewrite Hhex.
  destruct (parseDigits 10 (String c rest) None) as [m|]; [|reflexivity].
  f_equal. lia.
Qed.

Lemma parseInt_digits n :
  0 <= n -> parseIntString (decimalDigits (digitsFuel n) n "") = Some n.
Proof.
  intros Hn. unfold digitsFuel.
  rewrite parseIntString_decimal.
  - apply (parseDigits_decimalDigits _ n ""). split; [assumption|].
    apply (digitsFuel_enough n Hn).
  - apply decimalDigits_nonempty.
  - apply decimalDigits_decimal; [assumption | reflexivity].
Qed.

(** [parseInt] of a number gives the number back. *)
Lemma parseInt_Number z : parseInt (Number z) = Some z.
Proof.
  unfold parseInt, ToString, numberToString.
  destruct (z <? 0) eqn:Hz.
  - apply Z.ltb_lt in Hz.
    pose proof (parseInt_digits (- z) ltac:(lia)) as H.
    set (ds := decimalDigits (digitsFuel (- z)) (- z) "") in *.
    assert (Hds : ds <> EmptyString) by apply decimalDigits_nonempty.
    assert (Hall : allDecimal ds = true)
      by (apply decimalDigits_decimal; [lia | reflexivity]).
    rewrite (parseIntString_decimal ds Hds Hall) in H.
    unfold parseIntString. simpl trimStart.
    change (isWhiteSpace "-") with false. cbv iota.
    change (Ascii.eqb "-" "-") with true. cbv iota.
    assert (Hhex : hasHexPrefix ds = false).
    { destruct ds as [|c0 [|c1 r]]; try reflexivity. simpl in Hall.
      apply andb_true_iff in Hall as [_ Hall].
      apply andb_true_iff in Hall as [Hc1 _]. simpl.
      rewrite (decimal_not_char c1 "x" Hc1 eq_refl), (decimal_not_char c1 "X" Hc1 eq_refl).
      apply andb_false_r. }
    rewrite Hhex, H. f_equal. lia.
  - apply Z.ltb_ge in Hz. apply parseInt_digits. assumption.
Qed.

End BuiltIns.


(** ** Facts about the store and the callback *)

Section Callback.

Import Ember Bridge.

Lemma setValue_setValue v w node : setValue v (setValue w node) = setValue v node.
Proof. reflexivity. Qed.

Lemma setValue_value node : setValue (value (contents node)) node = node.
Proof. destruct node as [n [t i d v a]]. reflexivity. Qed.

Lemma lookup_tabulate f log node : lookup (tabulate f log) node = f node.
Proof. destruct node; reflexivity. Qed.

Lemma server_update_same node v store :
  fst (server_update node v store) node = setValue v (store node).
Proof.
  unfold server_update. cbn [fst]. rewrite lookup_tabulate.
  destruct (ParamNode_eq_dec node node); congruence.
Qed.

Lemma server_update_other node v store other :
  other <> node -> fst (server_update node v store) other = store other.
Proof.
  intros Hne. unfold server_update. cbn [fst]. rewrite lookup_tabulate.
  destruct (ParamNode_eq_dec other node); congruence.
Qed.

(** *** Only values change *)

Lemma onlyValues_refl store : onlyValues store store.
Proof. intros node. unfold valueOf. symmetry. apply setValue_value. Qed.

Lemma onlyValues_trans a b c : onlyValues a b -> onlyValues b c -> onlyValues a c.
Proof.
  intros Hab Hbc node. rewrite (Hbc node) at 1. rewrite (Hab node).
  apply setValue_setValue.
Qed.

Lemma onlyValues_update node v store :
  onlyValues store (fst (server_update node v store)).
Proof.
  intros other. unfold valueOf.
  destruct (ParamNode_eq_dec other node) as [->|Hne].
  - rewrite server_update_same. reflexivity.
  - rewrite server_update_other by assumption. symmetry. apply setValue_value.
Qed.

Lemma onlyValues_type a b node :
  onlyValues a b -> parameterType (contents (b node)) = parameterType (contents (a node)).
Proof. intros H. rewrite (H node). reflexivity. Qed.

(** *** One key *)

(** What [eachKey] does for a key of [oids]: an error marker is skipped; a
    raw value is decoded by the declared type of the key's leaf and written
    there; a decode that raises writes nothing. *)
Lemma eachKey_leaf varbinds key node index varbind store :
  In (key, node) leafOf ->
  nth_error varbinds index = Some varbind ->
  eachKey varbinds key index store =
    if Snmp.isVarbindError varbind then (store, inr tt)
    else match decode (declaredType node) (Snmp.value varbind) with
         | inr v => server_update node v store
         | inl e => (store, inl e)
         end.
Proof.
  intros Hin Hnth. unfold eachKey. rewrite Hnth.
  destruct (Snmp.isVarbindError varbind); [reflexivity|].
  simpl in Hin.
  repeat (destruct Hin as [Hin|Hin]; [injection Hin as <- <-|]); try contradiction;
    cbn -[Js.toStringMethod Js.parseInt Js.strictEq1 server_update];
    try reflexivity;
    unfold bind, lift; destruct (Js.toStringMethod (Snmp.value varbind)); reflexivity.
Qed.

Lemma eachKey_onlyValues varbinds key index store :
  onlyValues store (fst (eachKey varbinds key index store)).
Proof.
  unfold eachKey.
  destruct (nth_error varbinds index) as [varbind|]; [|apply onlyValues_refl].
  destruct (Snmp.isVarbindError varbind); [apply onlyValues_refl|].
  repeat match goal with
         | |- context [if String.eqb key ?k then _ else _] => destruct (String.eqb key k)
         end;
    try apply onlyValues_update; try apply onlyValues_refl;
    unfold bind, lift; destruct (Js.toStringMethod (Snmp.value varbind));
    try apply onlyValues_update; apply onlyValues_refl.
Qed.

Lemma bind_onlyValues {A B} (c : Cmd A) (k : A -> Cmd B) store :
  onlyValues store (fst (c store)) ->
  (forall a store1, onlyValues store1 (fst (k a store1))) ->
  onlyValues store (fst (bind c k store)).
Proof.
  intros Hc Hk. unfold bind. destruct (c store) as [store1 [e|a]]; [exact Hc|].
  exact (onlyValues_trans _ _ _ Hc (Hk a store1)).
Qed.

Lemma forEach_onlyValues varbinds keys :
  forall index store,
    onlyValues store (fst (forEach (eachKey varbinds) keys index store)).
Proof.
  induction keys as [|key rest IH]; intros index store; [apply onlyValues_refl|].
  simpl. apply bind_onlyValues; [apply eachKey_onlyValues|].
  intros _ store1. apply IH.
Qed.

Lemma onGet_onlyValues now error varbinds store :
  onlyValues store (fst (onGet now error varbinds store)).
Proof.
  unfold onGet. destruct error; [apply onlyValues_update|].
  apply bind_onlyValues; [apply onlyValues_update|]. intros _ store1.
  apply bind_onlyValues; [apply onlyValues_update|]. intros _ store2.
  apply forEach_onlyValues.
Qed.

(** *** The status nodes are not written by the loop over the keys *)

Lemma eachKey_status varbinds key index store node :
  node = connectedParameterNode \/ node = lastPollParameterNode ->
  fst (eachKey varbinds key index store) node = store node.
Proof.
  intros Hnode. unfold eachKey.
  destruct (nth_error varbinds index) as [varbind|]; [|reflexivity].
  destruct (Snmp.isVarbindError varbind); [reflexivity|].
  repeat match goal with
         | |- context [if String.eqb key ?k then _ else _] => destruct (String.eqb key k)
         end;
    try reflexivity;
    try (apply server_update_other; destruct Hnode; subst; discriminate);
    unfold bind, lift; destruct (Js.toStringMethod (Snmp.value varbind));
    try reflexivity;
    apply server_update_other; destruct Hnode; subst; discriminate.
Qed.

Lemma forEach_status varbinds keys node :
  node = connectedParameterNode \/ node = lastPollParameterNode ->
  forall index store,
    fst (forEach (eachKey varbinds) keys index store) node = store node.
Proof.
  intros Hnode. induction keys as [|key rest IH]; intros index store; [reflexivity|].
  simpl. unfold bind.
  pose proof (eachKey_status varbinds key index store node Hnode) as H1.
  destruct (eachKey varbinds key index store) as [store1 [e|[]]]; [exact H1|].
  rewrite IH. exact H1.
Qed.

(** After a successful batch read the two status nodes hold [true] and the
    timestamp of the instant, whatever the items are. *)
Lemma onGet_success_status now varbinds store :
  valueOf (fst (onGet now None varbinds store)) connectedParameterNode = Js.Bool true
  /\ valueOf (fst (onGet now None varbinds store)) lastPollParameterNode
     = Js.Str (Js.toISOString now).
Proof.
  unfold onGet, bind, server_update, valueOf. cbn beta iota.
  rewrite !forEach_status by auto. split; reflexivity.
Qed.

(** A successful batch read: the two status writes, then the loop. *)
Lemma onGet_success now varbinds store :
  onGet now None varbinds store
  = forEach (eachKey varbinds) (Object_keys oids) 0
      (fst (server_update lastPollParameterNode (Js.Str (Js.toISOString now))
              (fst (server_update connectedParameterNode (Js.Bool true) store)))).
Proof. reflexivity. Qed.

(** After a failed batch read only the connected node has been written. *)
Lemma onGet_failure now e varbinds store :
  onGet now (Some e) varbinds store
  = server_update connectedParameterNode (Js.Bool false) store.
Proof. reflexivity. Qed.

(** *** The loop over the keys *)

Lemma leafOf_keys : Object_keys oids = map fst leafOf.
Proof. reflexivity. Qed.

Lemma leafOf_NoDup : NoDup (map snd leafOf).
Proof.
  simpl. repeat (constructor; [simpl; intuition discriminate|]). constructor.
Qed.

(** The loop over a run of keys whose items are error markers or decode:
    it ends normally, leaves every other node alone, and each key's leaf
    holds its decoded value unless its item is an error marker. *)
Lemma forEach_leaves varbinds :
  forall (qs : list (string * ParamNode)) index store,
    incl qs leafOf ->
    NoDup (map snd qs) ->
    (forall j key node, nth_error qs j = Some (key, node) ->
       exists varbind, nth_error varbinds (index + j) = Some varbind
         /\ (Snmp.isVarbindError varbind = true
             \/ exists v, decode (declaredType node) (Snmp.value varbind) = inr v)) ->
    exists store',
      forEach (eachKey varbinds) (map fst qs) index store = (store', inr tt)
      /\ (forall other, ~ In other (map snd qs) -> store' other = store other)
      /\ (forall j key node varbind,
            nth_error qs j = Some (key, node) ->
            nth_error varbinds (index + j) = Some varbind ->
            store' node =
              if Snmp.isVarbindError varbind then store node
              else match decode (declaredType node) (Snmp.value varbind) with
                   | inr v => setValue v (store node)
                   | inl _ => store node
                   end).
Proof.
  induction qs as [|[key node] rest IH]; intros index store Hincl Hnodup Hitems.
  - exists store. split; [reflexivity|]. split; [reflexivity|].
    intros [|j] ? ? ? H; discriminate H.
  - simpl map in *. inversion Hnodup as [|? ? Hnotin Hnodup']; subst.
    destruct (Hitems 0%nat key node eq_refl) as (varbind & Hvb & Hok).
    assert (Hin : In (key, node) leafOf) by (apply Hincl; left; reflexivity).
    pose proof (eachKey_leaf varbinds key node (index + 0) varbind store Hin Hvb) as Hhead.
    rewrite Nat.add_0_r in Hhead, Hvb.
    specialize (IH (S index)).
    assert (Hitems' : forall j key' node', nth_error rest j = Some (key', node') ->
              exists varbind', nth_error varbinds (S index + j) = Some varbind'
                /\ (Snmp.isVarbindError varbind' = true
                    \/ exists v, decode (declaredType node') (Snmp.value varbind') = inr v)).
    { intros j key' node' Hj. specialize (Hitems (S j) key' node' Hj).
      rewrite Nat.add_succ_r in Hitems. exact Hitems. }
    assert (Hincl' : incl rest leafOf) by (intros q Hq; apply Hincl; right; exact Hq).
    (* the store after the head key *)
    set (store1 := fst (eachKey varbinds key index store)).
    assert (Hnormal : eachKey varbinds key index store = (store1, inr tt)).
    { unfold store1. rewrite Hhead.
      destruct (Snmp.isVarbindError varbind); [reflexivity|].
      destruct Hok as [Hok|[v Hv]]; [discriminate|]. rewrite Hv. reflexivity. }
    assert (Hnode1 : store1 node =
              if Snmp.isVarbindError varbind then store node
              else match decode (declaredType node) (Snmp.value varbind) with
                   | inr v => setValue v (store node)
                   | inl _ => store node
                   end).
    { unfold store1. rewrite Hhead.
      destruct (Snmp.isVarbindError varbind); [reflexivity|].
      destruct (decode (declaredType node) (Snmp.value varbind));
        [reflexivity | apply server_update_same]. }
    assert (Hother1 : forall other, other <> node -> store1 other = store other).
    { intros other Hne. unfold store1. rewrite Hhead.
      destruct (Snmp.isVarbindError varbind); [reflexivity|].
      destruct (decode (declaredType node) (Snmp.value varbind));
        [reflexivity | apply server_update_other; exact Hne]. }
    destruct (IH store1 Hincl' Hnodup' Hitems') as (store' & Hrun & Hframe & Hleaves).
    exists store'. split; [|split].
    + cbn [forEach]. unfold bind. rewrite Hnormal. exact Hrun.
    + intros other Hnot. rewrite Hframe by (intros H; apply Hnot; right; exact H).
      apply Hother1. intros ->. apply Hnot. left. reflexivity.
    + intros [|j] key' node' varbind' Hq Hv'.
      * injection Hq as <- <-. rewrite Nat.add_0_r in Hv'.
        rewrite Hvb in Hv'. injection Hv' as <-.
        rewrite Hframe by exact Hnotin. exact Hnode1.
      * cbn [nth_error] in Hq. rewrite Nat.add_succ_r in Hv'.
        rewrite (Hleaves j key' node' varbind' Hq Hv').
        assert (Hne : node' <> node).
        { intros ->. apply Hnotin. apply (in_map snd _ (key', node)).
          eapply nth_error_In. exact Hq. }
        rewrite (Hother1 node' Hne). reflexivity.
Qed.

End Callback.


(** ** The decoding of one item *)

Section Decoding.

Import Ember Bridge.

(** C3. For a Boolean-kind quantity whose item is not an error marker, the
    boolean written to its leaf is [true] if and only if the raw value read
    as an integer ([parseInt]) is 1; an integer raw value [z] gives
    [z = 1], so 0, 2 and the negative integers give [false]. *)
Theorem boolean_decode_is_equal_to_one key node varbinds index varbind store :
  In (key, node) leafOf ->
  declaredType node = ParameterType_Boolean ->
  nth_error varbinds index = Some varbind ->
  Snmp.isVarbindError varbind = false ->
  exists b,
    eachKey varbinds key index store = server_update node (Js.Bool b) store
    /\ (b = true <-> Js.parseInt (Snmp.value varbind) = Some 1)
    /\ (forall z, Snmp.value varbind = Js.Number z -> b = (z =? 1)).
Proof.
  intros Hin Htype Hnth Herr.
  exists (Js.strictEq1 (Js.parseInt (Snmp.value varbind))).
  rewrite (eachKey_leaf _ _ _ _ _ _ Hin Hnth), Herr, Htype. cbn [decode].
  split; [reflexivity|]. split.
  - unfold Js.strictEq1. destruct (Js.parseInt (Snmp.value varbind)) as [n|].
    + rewrite Z.eqb_eq. split; congruence.
    + split; discriminate.
  - intros z ->. rewrite parseInt_Number. reflexivity.
Qed.

Lemma boolean_decode_is_equal_to_one_witness :
  exists b,
    eachKey Samples.reading "analogInputSilent" 4 initialStore
    = server_update analogInputSilentParameterNode (Js.Bool b) initialStore
    /\ (b = true <-> Js.parseInt (Js.Number 2) = Some 1)
    /\ (forall z, Js.Number 2 = Js.Number z -> b = (z =? 1)).
Proof.
  apply (boolean_decode_is_equal_to_one
           "analogInputSilent" analogInputSilentParameterNode Samples.reading 4
           (Samples.integer "1.3.6.1.4.1.41877.5.3.3" 2) initialStore).
  - simpl. tauto.
  - reflexivity.
  - reflexivity.
  - reflexivity.
Defined.

(** C9. The boolean decode never raises: for a Boolean-kind quantity whose
    item is not an error marker the callback completes normally whatever
    the raw value is, and a raw value whose integer parse fails ([NaN]) is
    written to the leaf as [false], not skipped. *)
Theorem boolean_decode_never_raises key node varbinds index varbind store :
  In (key, node) leafOf ->
  declaredType node = ParameterType_Boolean ->
  nth_error varbinds index = Some varbind ->
  Snmp.isVarbindError varbind = false ->
  snd (eachKey varbinds key index store) = inr tt
  /\ (Js.parseInt (Snmp.value varbind) = None ->
      valueOf (fst (eachKey varbinds key index store)) node = Js.Bool false).
Proof.
  intros Hin Htype Hnth Herr.
  rewrite (eachKey_leaf _ _ _ _ _ _ Hin Hnth), Herr, Htype. cbn [decode].
  split; [reflexivity|]. intros Hnan. rewrite Hnan. unfold valueOf.
  rewrite server_update_same. reflexivity.
Qed.

Lemma boolean_decode_never_raises_witness :
  snd (eachKey Samples.reading "aesInputError" 6 initialStore) = inr tt
  /\ (Js.parseInt (Js.Buffer "up") = None ->
      valueOf (fst (eachKey Samples.reading "aesInputError" 6 initialStore))
              aesInputErrorParameterNode = Js.Bool false).
Proof.
  apply (boolean_decode_never_raises
           "aesInputError" aesInputErrorParameterNode Samples.reading 6
           (Samples.octets "1.3.6.1.4.1.41877.5.3.5" "up") initialStore).
  - simpl. tauto.
  - reflexivity.
  - reflexivity.
  - reflexivity.
Defined.

(** For a String-kind quantity whose item is not an error marker and
    whose raw value has a textual representation [s] (what
    [value.toString()] returns), the leaf is written the string [s]: the
    text of the payload itself when the raw value is a string or a buffer,
    the empty string included. *)
Theorem string_decode_is_verbatim key node varbinds index varbind store s :
  In (key, node) leafOf ->
  declaredType node = ParameterType_String ->
  nth_error varbinds index = Some varbind ->
  Snmp.isVarbindError varbind = false ->
  Js.toStringMethod (Snmp.value varbind) = inr s ->
  eachKey varbinds key index store = server_update node (Js.Str s) store
  /\ valueOf (fst (eachKey varbinds key index store)) node = Js.Str s
  /\ s = Js.ToString (Snmp.value varbind)
  /\ (forall payload,
        Snmp.value varbind = Js.Str payload \/ Snmp.value varbind = Js.Buffer payload ->
        s = payload).
Proof.
  intros Hin Htype Hnth Herr Hs.
  rewrite (eachKey_leaf _ _ _ _ _ _ Hin Hnth), Herr, Htype. cbn [decode]. rewrite Hs.
  split; [reflexivity|]. split.
  - unfold valueOf. rewrite server_update_same. reflexivity.
  - split.
    + destruct (Snmp.value varbind); try discriminate Hs;
        injection Hs as <-; reflexivity.
    + intros payload [H|H]; rewrite H in Hs; simpl in Hs; congruence.
Qed.

Lemma string_decode_is_verbatim_witness :
  eachKey Samples.reading "stationName" 1 initialStore
  = server_update stationNameParameterNode (Js.Str "") initialStore
  /\ valueOf (fst (eachKey Samples.reading "stationName" 1 initialStore))
             stationNameParameterNode = Js.Str ""
  /\ "" = Js.ToString (Js.Buffer "")
  /\ (forall payload,
        Js.Buffer "" = Js.Str payload \/ Js.Buffer "" = Js.Buffer payload -> "" = payload).
Proof.
  apply (string_decode_is_verbatim
           "stationName" stationNameParameterNode Samples.reading 1
           (Samples.octets "1.3.6.1.4.1.41877.5.1.2" "") initialStore "").
  - simpl. tauto.
  - reflexivity.
  - reflexivity.
  - reflexivity.
  - reflexivity.
Defined.

(** A raw value without a [toString] method is not decoded: [null] for a
    String-kind quantity raises a [TypeError] and writes nothing. *)
Lemma null_string_reading_raises key store :
  exists e,
    eachKey [Samples.null key] "softwareVersion" 0 store = (store, inl e).
Proof. eexists. unfold eachKey, bind, lift. simpl. reflexivity. Qed.

End Decoding.


(** ** One polling cycle *)

Section Cycle.

Import Ember Bridge.

(** C1. A polling cycle whose batch read fails as a whole completes
    normally with a single update, that of the connected leaf to [false]
    (Disconnected): none of the data leaves is updated, and the last-poll
    timestamp leaf is left as it was before the cycle. *)
Theorem failed_batch_read_updates_no_leaf now e varbinds store :
  let '(store', r) := onGet now (Some e) varbinds store in
  r = inr tt
  /\ updates store' = (updates store ++ [(connectedParameterNode, Js.Bool false)])%list
  /\ Forall (fun q => store' (snd q) = store (snd q)) leafOf
  /\ valueOf store' connectedParameterNode = Js.Bool false
  /\ store' lastPollParameterNode = store lastPollParameterNode.
Proof.
  rewrite onGet_failure.
  destruct (server_update connectedParameterNode (Js.Bool false) store)
    as [store' r] eqn:Hrun.
  assert (Hstore : store' = fst (server_update connectedParameterNode (Js.Bool false) store))
    by (rewrite Hrun; reflexivity).
  assert (Hr : r = snd (server_update connectedParameterNode (Js.Bool false) store))
    by (rewrite Hrun; reflexivity).
  split; [exact Hr|]. subst store'. split; [reflexivity|]. split; [|split].
  - apply Forall_forall. intros [key node] Hin. simpl snd.
    apply server_update_other. intros ->.
    simpl in Hin. intuition discriminate.
  - unfold valueOf. rewrite server_update_same. reflexivity.
  - apply server_update_other. discriminate.
Qed.

(** C4. In a successful batch of N items (one per key, in the order of the
    keys) in which exactly item [i] carries an error marker and every other
    item decodes, the callback completes normally with the connected leaf
    [true] and the timestamp set (an overall success), the leaf of item [i]
    keeps the state it had, and the leaf of every other item holds its
    decoded value. *)
Theorem per_item_failure_isolation now varbinds i store :
  List.length varbinds = List.length leafOf ->
  (i < List.length leafOf)%nat ->
  (forall j varbind, nth_error varbinds j = Some varbind ->
     (Snmp.isVarbindError varbind = true <-> j = i)) ->
  (forall j key node varbind,
     j <> i -> nth_error leafOf j = Some (key, node) ->
     nth_error varbinds j = Some varbind ->
     exists v, decode (declaredType node) (Snmp.value varbind) = inr v) ->
  exists store',
    onGet now None varbinds store = (store', inr tt)
    /\ valueOf store' connectedParameterNode = Js.Bool true
    /\ valueOf store' lastPollParameterNode = Js.Str (Js.toISOString now)
    /\ forall j key node varbind,
         nth_error leafOf j = Some (key, node) ->
         nth_error varbinds j = Some varbind ->
         (j = i -> store' node = store node)
         /\ (j <> i ->
             exists v, decode (declaredType node) (Snmp.value varbind) = inr v
                       /\ store' node = setValue v (store node)).
Proof.
  intros Hlen Hi Hmarker Hdecode.
  pose proof (onGet_success_status now varbinds store) as [Hconn Hlast].
  rewrite onGet_success in *.
  set (store2 := fst (server_update lastPollParameterNode _ _)) in *.
  assert (Hdata : forall key node, In (key, node) leafOf -> store2 node = store node).
  { intros key node Hin. unfold store2.
    rewrite !server_update_other; [reflexivity| |];
      intros ->; simpl in Hin; intuition discriminate. }
  destruct (forEach_leaves varbinds leafOf 0 store2 (incl_refl _) leafOf_NoDup)
    as (store' & Hrun & Hframe & Hleaves).
  { intros j key node Hj.
    assert (Hlt : (j < List.length varbinds)%nat)
      by (rewrite Hlen; apply nth_error_Some; congruence).
    destruct (nth_error varbinds j) as [varbind|] eqn:Hvb;
      [|apply nth_error_Some in Hlt; congruence].
    exists varbind. split; [exact Hvb|].
    destruct (Nat.eq_dec j i) as [->|Hne].
    - left. apply (Hmarker i varbind Hvb). reflexivity.
    - right. exact (Hdecode j key node varbind Hne Hj Hvb). }
  rewrite leafOf_keys in *. exists store'. rewrite Hrun in Hconn, Hlast.
  split; [exact Hrun|]. split; [exact Hconn|]. split; [exact Hlast|].
  intros j key node varbind Hj Hvb.
  pose proof (Hleaves j key node varbind Hj Hvb) as Hnode.
  rewrite (Hdata key node (nth_error_In _ _ Hj)) in Hnode.
  split.
  - intros ->. rewrite (proj2 (Hmarker i varbind Hvb) eq_refl) in Hnode. exact Hnode.
  - intros Hne.
    destruct (Snmp.isVarbindError varbind) eqn:Herr.
    + exfalso. apply Hne. apply (Hmarker j varbind Hvb). exact Herr.
    + destruct (Hdecode j key node varbind Hne Hj Hvb) as [v Hv].
      exists v. rewrite Hv in Hnode. split; [exact Hv | exact Hnode].
Qed.

Lemma per_item_failure_isolation_witness :
  exists store',
    onGet 1700000000000 None Samples.readingWithMarker initialStore = (store', inr tt)
    /\ valueOf store' connectedParameterNode = Js.Bool true
    /\ valueOf store' lastPollParameterNode = Js.Str (Js.toISOString 1700000000000)
    /\ forall j key node varbind,
         nth_error leafOf j = Some (key, node) ->
         nth_error Samples.readingWithMarker j = Some varbind ->
         (j = 3%nat -> store' node = initialStore node)
         /\ (j <> 3%nat ->
             exists v, decode (declaredType node) (Snmp.value varbind) = inr v
                       /\ store' node = setValue v (initialStore node)).
Proof.
  apply (per_item_failure_isolation 1700000000000 Samples.readingWithMarker 3 initialStore).
  - reflexivity.
  - repeat constructor.
  - intros j varbind H.
    do 9 (destruct j as [|j];
          [injection H as <-; split; intros H; (discriminate H || reflexivity)|]).
    destruct j; discriminate H.
  - intros j key node varbind Hne Hq H.
    do 9 (destruct j as [|j];
          [injection H as <-; injection Hq as <- <-;
           try (exfalso; apply Hne; reflexivity); eexists; reflexivity|]).
    destruct j; discriminate H.
Defined.

End Cycle.


(** ** The process *)

Section Runs.

Import Ember Bridge.

Lemma run_invariant (P : Process -> Prop) :
  (forall p e p', P p -> step p e = Some p' -> P p') ->
  forall trace p p', P p -> run p trace = Some p' -> P p'.
Proof.
  intros Hstep. induction trace as [|e rest IH]; intros p p' HP Hrun.
  - injection Hrun as <-. exact HP.
  - simpl in Hrun. destruct (step p e) as [p1|] eqn:H1; [|discriminate].
    exact (IH p1 p' (Hstep p e p1 HP H1) Hrun).
Qed.

(** The two kinds of step, read backwards. *)
Lemma step_Tick p t p' :
  step p (Tick t) = Some p' ->
  crashed p = false /\ clock p <= t /\ timerDue p <= t
  /\ p' = {| store := store p; clock := t; timerRepeat := timerRepeat p;
             timerDue := t + timerRepeat p;
             cycles := (cycles p ++ [pollOptimod t])%list; crashed := false |}.
Proof.
  unfold step. destruct (crashed p); [discriminate|].
  destruct ((clock p <=? t) && (timerDue p <=? t)) eqn:H; [|discriminate].
  apply andb_true_iff in H as [H1 H2]. apply Z.leb_le in H1, H2.
  intros H. injection H as <-. auto.
Qed.

Lemma step_Response p k t error varbinds p' :
  step p (Response k t error varbinds) = Some p' ->
  crashed p = false /\ clock p <= t
  /\ exists cycles',
       complete k t (cycles p) = Some cycles'
       /\ p' = {| store := fst (onGet t error varbinds (store p)); clock := t;
                  timerRepeat := timerRepeat p; timerDue := timerDue p; cycles := cycles';
                  crashed := isThrow (snd (onGet t error varbinds (store p))) |}.
Proof.
  unfold step. destruct (crashed p); [discriminate|].
  destruct (clock p <=? t) eqn:H; [|discriminate]. apply Z.leb_le in H.
  destruct (complete k t (cycles p)) as [cycles'|]; [|discriminate].
  destruct (onGet t error varbinds (store p)) as [store' r].
  intros H'. injection H' as <-. split; [reflexivity|]. split; [exact H|].
  exists cycles'. split; reflexivity.
Qed.

Lemma complete_started k t :
  forall cs cs', complete k t cs = Some cs' -> map started cs' = map started cs.
Proof.
  induction k as [|k IH]; intros [|c rest] cs' H; simpl in H; try discriminate.
  - destruct (completed c); [discriminate|]. injection H as <-. reflexivity.
  - destruct (complete k t rest) as [rest'|] eqn:Hrest; [|discriminate].
    injection H as <-. simpl. f_equal. exact (IH rest rest' Hrest).
Qed.

Lemma startOf_map p k : startOf p k = nth_error (map started (cycles p)) k.
Proof. unfold startOf. symmetry. apply nth_error_map. Qed.

(** *** Typing *)

Lemma update_wellTyped node v store :
  wellTyped store ->
  hasType (parameterType (contents (store node))) v = true ->
  wellTyped (fst (server_update node v store)).
Proof.
  intros Hwt Hv other. unfold valueOf.
  destruct (ParamNode_eq_dec other node) as [->|Hne].
  - rewrite server_update_same. exact Hv.
  - rewrite server_update_other by assumption. apply Hwt.
Qed.

Lemma declared_onlyValues a b : declared a -> onlyValues a b -> declared b.
Proof. intros Ha Hab node. rewrite (onlyValues_type a b node Hab). apply Ha. Qed.

Lemma update_Typed node v store :
  Typed store ->
  hasType (declaredType node) v = true ->
  Typed (fst (server_update node v store)).
Proof.
  intros (Hd & Hwt & Hup) Hv. split; [|split].
  - apply (declared_onlyValues store); [exact Hd | apply onlyValues_update].
  - apply update_wellTyped; [exact Hwt | rewrite Hd; exact Hv].
  - unfold typedUpdates, server_update. cbn [fst updates tabulate].
    apply Forall_app. split; [exact Hup|]. constructor; [exact Hv | constructor].
Qed.

Lemma bind_Typed {A B} (c : Cmd A) (k : A -> Cmd B) store :
  Typed (fst (c store)) ->
  (forall a store1, Typed store1 -> Typed (fst (k a store1))) ->
  Typed (fst (bind c k store)).
Proof.
  intros Hc Hk. unfold bind. destruct (c store) as [store1 [e|a]]; [exact Hc|].
  exact (Hk a store1 Hc).
Qed.

Lemma eachKey_Typed varbinds key index store :
  Typed store -> Typed (fst (eachKey varbinds key index store)).
Proof.
  intros Ht. unfold eachKey.
  destruct (nth_error varbinds index) as [varbind|]; [|exact Ht].
  destruct (Snmp.isVarbindError varbind); [exact Ht|].
  repeat match goal with
         | |- context [if String.eqb key ?k then _ else _] => destruct (String.eqb key k)
         end;
    first
      [ exact Ht
      | apply update_Typed; [exact Ht | reflexivity]
      | unfold bind, lift; destruct (Js.toStringMethod (Snmp.value varbind));
        [exact Ht | apply update_Typed; [exact Ht | reflexivity]] ].
Qed.

Lemma forEach_Typed varbinds keys :
  forall index store,
    Typed store -> Typed (fst (forEach (eachKey varbinds) keys index store)).
Proof.
  induction keys as [|key rest IH]; intros index store Ht; [exact Ht|].
  simpl. apply bind_Typed; [apply eachKey_Typed; exact Ht|].
  intros _ store1 H1. apply IH. exact H1.
Qed.

Lemma onGet_Typed now error varbinds store :
  Typed store -> Typed (fst (onGet now error varbinds store)).
Proof.
  intros Ht. destruct error as [e|].
  - rewrite onGet_failure. apply update_Typed; [exact Ht | reflexivity].
  - unfold onGet.
    apply bind_Typed; [apply update_Typed; [exact Ht | reflexivity]|].
    intros _ store1 H1.
    apply bind_Typed; [apply update_Typed; [exact H1 | reflexivity]|].
    intros _ store2 H2. apply forEach_Typed. exact H2.
Qed.

Lemma initialStore_declared : declared initialStore.
Proof. intros node. reflexivity. Qed.

Lemma initialStore_wellTyped : wellTyped initialStore.
Proof. intros node. destruct node; reflexivity. Qed.

Lemma step_store p e p' :
  step p e = Some p' ->
  store p' = store p
  \/ exists now error varbinds, store p' = fst (onGet now error varbinds (store p)).
Proof.
  destruct e as [t|k t error varbinds]; intros H.
  - apply step_Tick in H as (_ & _ & _ & ->). left. reflexivity.
  - apply step_Response in H as (_ & _ & cycles' & _ & ->). right.
    exists t, error, varbinds. reflexivity.
Qed.

Lemma run_onlyValues trace :
  forall p p', run p trace = Some p' -> onlyValues (store p) (store p').
Proof.
  induction trace as [|e rest IH]; intros p p' Hrun.
  - injection Hrun as <-. apply onlyValues_refl.
  - simpl in Hrun. destruct (step p e) as [p1|] eqn:H1; [|discriminate].
    apply (onlyValues_trans _ (store p1)); [|exact (IH p1 p' Hrun)].
    destruct (step_store p e p1 H1) as [->|(now & error & varbinds & ->)];
      [apply onlyValues_refl | apply onGet_onlyValues].
Qed.

End Runs.


(** ** The published tree *)

Section Shape.

Import Ember Bridge.

Lemma shape_onlyValues a b : onlyValues a b -> shape b = shape a.
Proof.
  intros H. unfold shape, published, tree, deviceInfoSubtree, monitoringSubtree,
    statusSubtree, group.
  cbn [rootEntries entries map app shapeOf path label text kind nodeIdentifier
       nodeDescription].
  rewrite (H softwareVersionParameterNode), (H stationNameParameterNode),
    (H inputAnalogParameterNode), (H inputDigitalParameterNode),
    (H analogInputSilentParameterNode), (H aesInputSilentParameterNode),
    (H aesInputErrorParameterNode), (H powerSupply1StatusParameterNode),
    (H powerSupply2StatusParameterNode), (H connectedParameterNode),
    (H lastPollParameterNode).
  reflexivity.
Qed.

Lemma run_shape env t0 trace p :
  run (boot env t0) trace = Some p -> shape (store p) = shape initialStore.
Proof.
  intros Hrun. apply shape_onlyValues. exact (run_onlyValues trace _ _ Hrun).
Qed.

Lemma initial_paths_NoDup : NoDup (pathsOf (shape initialStore)).
Proof.
  vm_compute.
  repeat (constructor; [simpl; intuition discriminate|]). constructor.
Qed.

(** Every element of the tree sits under the key that is its number. *)
Lemma tree_keyed :
  forallb (fun '(key, e) => keyed initialStore key e) tree = true.
Proof. reflexivity. Qed.

(** C8. Tree construction is deterministic: two runs of the program, with
    whatever settings, started at whatever instants and after whatever
    polling history, publish trees of the same shape (the same paths,
    labels, descriptions and kinds, in the same order); the paths are
    pairwise distinct and the parameters are grouped under Device Info,
    Monitoring and Status in the same way. *)
Theorem tree_shape_is_deterministic env1 t1 trace1 p1 env2 t2 trace2 p2 :
  run (boot env1 t1) trace1 = Some p1 ->
  run (boot env2 t2) trace2 = Some p2 ->
  shape (store p1) = shape (store p2)
  /\ NoDup (pathsOf (shape (store p1)))
  /\ parametersUnder [1; 1] (shape (store p1)) = ["Software Version"; "Station Name"]
  /\ parametersUnder [1; 2] (shape (store p1))
     = ["Input Analog"; "Input Digital"; "Analog Input Silent"; "AES Input Silent";
        "AES Input Error"; "Power Supply 1"; "Power Supply 2"]
  /\ parametersUnder [1; 3] (shape (store p1)) = ["Optimod Connected"; "Last Poll"].
Proof.
  intros H1 H2. rewrite (run_shape _ _ _ _ H1), (run_shape _ _ _ _ H2).
  split; [reflexivity|]. split; [exact initial_paths_NoDup|].
  repeat split; reflexivity.
Qed.

End Shape.

Lemma tree_shape_is_deterministic_witness :
  exists p1 p2,
    Bridge.run (Bridge.boot Samples.defaults 1000) Samples.overlapping = Some p1
    /\ Bridge.run (Bridge.boot (Samples.withInterval "250") 0) Samples.thenFailing = Some p2
    /\ Bridge.shape (Bridge.store p1) = Bridge.shape (Bridge.store p2).
Proof.
  eexists. eexists. split; [vm_compute; reflexivity|]. split; [vm_compute; reflexivity|].
  apply (tree_shape_is_deterministic
           Samples.defaults 1000 Samples.overlapping _
           (Samples.withInterval "250") 0 Samples.thenFailing _).
  - vm_compute. reflexivity.
  - vm_compute. reflexivity.
Defined.


(** ** Availability, typing and scheduling along a run *)

Section Availability.

Import Ember Bridge.

Lemma timerDelay_positive after : 1 <= timerDelay after.
Proof.
  unfold timerDelay. destruct ((1 <=? after) && (after <=? 2147483647)) eqn:H; [|lia].
  apply andb_true_iff in H as [H _]. apply Z.leb_le in H. exact H.
Qed.

Lemma nth_error_snoc {A} (l : list A) (x : A) k y :
  nth_error (l ++ [x])%list k = Some y ->
  nth_error l k = Some y \/ (k = List.length l /\ y = x).
Proof.
  intros H. destruct (Nat.lt_ge_cases k (List.length l)) as [Hlt|Hge].
  - left. rewrite nth_error_app1 in H by exact Hlt. exact H.
  - right. rewrite nth_error_app2 in H by exact Hge.
    destruct (k - List.length l)%nat as [|m] eqn:Hk.
    + injection H as <-. split; [lia | reflexivity].
    + destruct m; discriminate H.
Qed.

Lemma step_timerRepeat p e p' : step p e = Some p' -> timerRepeat p' = timerRepeat p.
Proof.
  destruct e as [t|k t error varbinds]; intros H.
  - apply step_Tick in H as (_ & _ & _ & ->). reflexivity.
  - apply step_Response in H as (_ & _ & cycles' & _ & ->). reflexivity.
Qed.

Lemma step_Timeline p e p' : Timeline p -> step p e = Some p' -> Timeline p'.
Proof.
  intros (Hpos & Hdue & Hgap) H. destruct e as [t|k t error varbinds].
  - apply step_Tick in H as (_ & _ & Htimer & ->).
    assert (Hold : forall k s, nth_error (map started (cycles p)) k = Some s -> s + timerRepeat p <= t).
    { intros k s Hk. rewrite <- startOf_map in Hk. specialize (Hdue k s Hk). lia. }
    unfold Timeline. cbn [timerRepeat timerDue]. split; [exact Hpos|]. split.
    + intros k s Hk. rewrite startOf_map in Hk. cbn [cycles] in Hk.
      rewrite map_app in Hk. apply nth_error_snoc in Hk as [Hk|[_ ->]].
      * specialize (Hold k s Hk). lia.
      * cbn [started pollOptimod]. lia.
    + intros k s1 s2 H1 H2. rewrite startOf_map in H1, H2. cbn [cycles] in H1, H2.
      rewrite map_app in H1, H2.
      apply nth_error_snoc in H2 as [H2|[Hlen ->]].
      * apply nth_error_snoc in H1 as [H1|[Hlen _]].
        -- apply (Hgap k); rewrite startOf_map; assumption.
        -- assert (S k < List.length (map started (cycles p)))%nat
             by (apply nth_error_Some; congruence).
           lia.
      * apply nth_error_snoc in H1 as [H1|[Hlen' _]]; [|lia].
        cbn [started pollOptimod]. exact (Hold k s1 H1).
  - apply step_Response in H as (_ & _ & cycles' & Hc & ->).
    apply complete_started in Hc.
    unfold Timeline. cbn [timerRepeat timerDue]. split; [exact Hpos|]. split.
    + intros j s Hj. rewrite startOf_map in Hj. cbn [cycles] in Hj. rewrite Hc in Hj.
      apply (Hdue j). rewrite startOf_map. exact Hj.
    + intros j s1 s2 H1 H2. rewrite startOf_map in H1, H2. cbn [cycles] in H1, H2.
      rewrite Hc in H1, H2. apply (Hgap j); rewrite startOf_map; assumption.
Qed.

Lemma boot_Timeline env t0 : Timeline (boot env t0).
Proof.
  unfold Timeline, boot. cbn [timerRepeat timerDue]. split; [apply timerDelay_positive|].
  split.
  - intros [|k] s H; discriminate H.
  - intros [|k] s1 s2 H; discriminate H.
Qed.

Lemma step_Stamped p e p' : Stamped p -> step p e = Some p' -> Stamped p'.
Proof.
  intros Hs H. destruct e as [t|k t error varbinds].
  - apply step_Tick in H as (_ & Hclock & _ & ->). unfold Stamped in *. cbn [store clock].
    destruct Hs as [Hs|(t0 & Ht0 & Hs)]; [left; exact Hs|].
    right. exists t0. split; [lia | exact Hs].
  - apply step_Response in H as (_ & Hclock & cycles' & _ & ->).
    unfold Stamped in *. cbn [store clock]. destruct error as [e|].
    + rewrite onGet_failure. unfold valueOf in *.
      rewrite server_update_other by discriminate.
      destruct Hs as [Hs|(t0 & Ht0 & Hs)]; [left; exact Hs|].
      right. exists t0. split; [lia | exact Hs].
    + right. exists t. split; [lia|]. apply onGet_success_status.
Qed.

Lemma run_timerRepeat env t0 trace p :
  run (boot env t0) trace = Some p -> timerRepeat p = timerDelay (POLL_INTERVAL_MS env).
Proof.
  apply (run_invariant (fun q => timerRepeat q = timerDelay (POLL_INTERVAL_MS env))).
  - intros q e q' Hq H. rewrite (step_timerRepeat q e q' H). exact Hq.
  - reflexivity.
Qed.

Lemma run_Timeline env t0 trace p : run (boot env t0) trace = Some p -> Timeline p.
Proof. apply (run_invariant Timeline step_Timeline). apply boot_Timeline. Qed.

Lemma run_Stamped env t0 trace p : run (boot env t0) trace = Some p -> Stamped p.
Proof.
  apply (run_invariant Stamped step_Stamped). left. reflexivity.
Qed.

Lemma initialStore_Typed : Typed initialStore.
Proof.
  split; [exact initialStore_declared|]. split; [exact initialStore_wellTyped|].
  constructor.
Qed.

Lemma run_Typed env t0 trace p :
  run (boot env t0) trace = Some p -> Typed (store p).
Proof.
  apply (run_invariant (fun q => Typed (store q))).
  - intros q e q' Ht H.
    destruct (step_store q e q' H) as [->|(now & error & varbinds & ->)];
      [exact Ht | apply onGet_Typed; exact Ht].
  - exact initialStore_Typed.
Qed.

End Availability.


(** ** The claims about a run *)

Section RunClaims.

Import Ember Bridge.

(** C2. In every polling cycle whose batch read succeeds, whatever the
    items are (error markers included), the connected leaf becomes [true]
    and the last-poll leaf is set to the timestamp of the instant the cycle
    completes; the leaf was empty before, or showed an instant that is not
    later than this one. *)
Theorem successful_batch_read_marks_connected env t0 trace p k t varbinds p' :
  run (boot env t0) trace = Some p ->
  step p (Response k t None varbinds) = Some p' ->
  valueOf (store p') connectedParameterNode = Js.Bool true
  /\ valueOf (store p') lastPollParameterNode = Js.Str (Js.toISOString t)
  /\ (valueOf (store p) lastPollParameterNode = Js.Str ""
      \/ exists previous,
           previous <= t
           /\ valueOf (store p) lastPollParameterNode = Js.Str (Js.toISOString previous)).
Proof.
  intros Hrun Hstep. pose proof (run_Stamped _ _ _ _ Hrun) as Hs.
  apply step_Response in Hstep as (_ & Hclock & cycles' & _ & ->). cbn [store].
  destruct (onGet_success_status t varbinds (store p)) as [Hconn Hlast].
  split; [exact Hconn|]. split; [exact Hlast|].
  destruct Hs as [Hs|(previous & Hle & Hs)]; [left; exact Hs|].
  right. exists previous. split; [lia | exact Hs].
Qed.

Lemma successful_batch_read_marks_connected_witness :
  exists p p',
    run (boot Samples.defaults 1000)
        [Tick 6000; Tick 11000; Response 0 12000 None Samples.reading] = Some p
    /\ step p (Response 1 12500 None Samples.readingWithMarker) = Some p'
    /\ valueOf (store p') connectedParameterNode = Js.Bool true
    /\ valueOf (store p') lastPollParameterNode = Js.Str "1970-01-01T00:00:12.500Z"
    /\ valueOf (store p) lastPollParameterNode = Js.Str "1970-01-01T00:00:12.000Z".
Proof.
  eexists. eexists. split; [vm_compute; reflexivity|]. split; [vm_compute; reflexivity|].
  pose proof (successful_batch_read_marks_connected
                Samples.defaults 1000
                [Tick 6000; Tick 11000; Response 0 12000 None Samples.reading] _
                1%nat 12500 Samples.readingWithMarker _
                ltac:(vm_compute; reflexivity) ltac:(vm_compute; reflexivity))
    as (Hconn & Hlast & _).
  split; [exact Hconn|]. split; [exact Hlast|]. vm_compute. reflexivity.
Defined.

(** C10. Every leaf update keeps the declared parameter type.  In every
    state a run reaches, every update the server was given wrote a value of
    the type its node was declared with, and each node still has that type
    and holds a value of it: the String leaves (the last-poll leaf included)
    are only written strings, the Boolean leaves (the connected leaf
    included) only booleans. *)
Theorem leaf_updates_preserve_types env t0 trace p :
  run (boot env t0) trace = Some p ->
  Forall (fun u => hasType (declaredType (fst u)) (snd u) = true) (updates (store p))
  /\ forall node,
       parameterType (contents (store p node)) = declaredType node
       /\ hasType (declaredType node) (valueOf (store p) node) = true.
Proof.
  intros Hrun. destruct (run_Typed _ _ _ _ Hrun) as (Hd & Hwt & Hup).
  split; [exact Hup|]. intros node.
  split; [apply Hd|]. rewrite <- Hd. apply Hwt.
Qed.

Lemma leaf_updates_preserve_types_witness :
  exists p,
    run (boot Samples.defaults 1000) Samples.thenFailing = Some p
    /\ Forall (fun u => hasType (declaredType (fst u)) (snd u) = true) (updates (store p))
    /\ forall node,
         parameterType (contents (store p node)) = declaredType node
         /\ hasType (declaredType node) (valueOf (store p) node) = true.
Proof.
  eexists. split; [vm_compute; reflexivity|].
  apply (leaf_updates_preserve_types Samples.defaults 1000 Samples.thenFailing).
  vm_compute. reflexivity.
Defined.

(** C5, as stated, fails: with the default settings the timer starts the
    second cycle at 11000 while the first, started at 6000, is still in
    flight, so two cycles are in flight; the first completes at 12000,
    after the second has started. *)
Lemma cycles_do_overlap :
  exists q p,
    run (boot Samples.defaults 1000) [Tick 6000; Tick 11000] = Some q
    /\ inFlight q = 2%nat
    /\ ~ atMostOneInFlight q
    /\ run q [Response 0 12000 None Samples.reading] = Some p
    /\ startOf p 1 = Some 11000
    /\ completionOf p 0 = Some 12000
    /\ ~ cyclesNeverOverlap p.
Proof.
  eexists. eexists.
  split; [vm_compute; reflexivity|].
  split; [reflexivity|].
  split; [unfold atMostOneInFlight; cbn; lia|].
  split; [vm_compute; reflexivity|].
  split; [reflexivity|].
  split; [reflexivity|].
  intros H. specialize (H 0%nat 11000 12000 eq_refl eq_refl). lia.
Qed.

(** C5, amended.  Consecutive cycles start at least one timer delay apart:
    the start of cycle [k+1] is never earlier than the start of cycle [k]
    plus the delay, which is the poll interval when that lies within
    1 .. 2^31-1 ms and 1 ms otherwise.  The timer starts a cycle whenever it
    is due, whether or not earlier cycles have completed, so the number of
    cycles in flight grows with each such start. *)
Theorem cycles_start_one_delay_apart env t0 trace p :
  run (boot env t0) trace = Some p ->
  (forall k s1 s2,
     startOf p k = Some s1 -> startOf p (S k) = Some s2 ->
     s1 + timerDelay (POLL_INTERVAL_MS env) <= s2 /\ s1 < s2)
  /\ (forall t,
        crashed p = false -> clock p <= t -> timerDue p <= t ->
        exists p', step p (Tick t) = Some p' /\ inFlight p' = S (inFlight p)).
Proof.
  intros Hrun. destruct (run_Timeline _ _ _ _ Hrun) as (Hpos & _ & Hgap).
  rewrite (run_timerRepeat _ _ _ _ Hrun) in *. split.
  - intros k s1 s2 H1 H2. specialize (Hgap k s1 s2 H1 H2). lia.
  - intros t Hc Hclock Hdue. unfold step. rewrite Hc.
    replace ((clock p <=? t) && (timerDue p <=? t)) with true
      by (symmetry; apply andb_true_iff; split; apply Z.leb_le; assumption).
    eexists. split; [reflexivity|]. unfold inFlight. cbn [cycles].
    rewrite filter_app, length_app. cbn. lia.
Qed.

Lemma cycles_start_one_delay_apart_witness :
  exists p,
    run (boot Samples.defaults 1000) Samples.overlapping = Some p
    /\ (forall k s1 s2,
          startOf p k = Some s1 -> startOf p (S k) = Some s2 ->
          s1 + timerDelay (POLL_INTERVAL_MS Samples.defaults) <= s2 /\ s1 < s2)
    /\ (forall t,
          crashed p = false -> clock p <= t -> timerDue p <= t ->
          exists p', step p (Tick t) = Some p' /\ inFlight p' = S (inFlight p)).
Proof.
  eexists. split; [vm_compute; reflexivity|].
  apply (cycles_start_one_delay_apart Samples.defaults 1000 Samples.overlapping).
  vm_compute. reflexivity.
Defined.

(** C6, as stated, fails: with [POLL_INTERVAL_MS=0], which is not a
    positive number of milliseconds, the process starts and polls, 5000 ms
    after startup. *)
Lemma invalid_interval_still_polls :
  exists p,
    invalidInterval (Samples.withInterval "0")
    /\ run (boot (Samples.withInterval "0") 1000) [Tick 6000] = Some p
    /\ polls p.
Proof.
  eexists. split; [|split].
  - exists "0". split; [reflexivity|]. intros n Hn. vm_compute in Hn.
    injection Hn as <-. lia.
  - vm_compute. reflexivity.
  - unfold polls. cbn. discriminate.
Qed.

(** C6, amended.  When the poll interval is not set, does not parse as an
    integer or parses to zero, startup does not fail: the interval is the
    default of 5000 ms, the timer is not due before 5000 ms have passed, and
    when it fires then the process polls. *)
Theorem unusable_interval_falls_back_to_default env t0 :
  Js.parseInt (envValue (env_POLL_INTERVAL_MS env)) = None
  \/ Js.parseInt (envValue (env_POLL_INTERVAL_MS env)) = Some 0 ->
  POLL_INTERVAL_MS env = 5000
  /\ (forall t, t < t0 + 5000 -> step (boot env t0) (Tick t) = None)
  /\ exists p, step (boot env t0) (Tick (t0 + 5000)) = Some p /\ polls p.
Proof.
  intros H.
  assert (Hint : POLL_INTERVAL_MS env = 5000)
    by (unfold POLL_INTERVAL_MS; destruct H as [-> | ->]; reflexivity).
  split; [exact Hint|].
  unfold step, boot. rewrite Hint. cbn [crashed clock timerDue]. split.
  - intros t Ht. change (timerDelay 5000) with 5000.
    replace (t0 + 5000 <=? t) with false by (symmetry; apply Z.leb_gt; exact Ht).
    rewrite andb_false_r. reflexivity.
  - change (timerDelay 5000) with 5000.
    replace ((t0 <=? t0 + 5000) && (t0 + 5000 <=? t0 + 5000)) with true
      by (symmetry; apply andb_true_iff; split; apply Z.leb_le; lia).
    eexists. split; [reflexivity|]. unfold polls. cbn. discriminate.
Qed.

Lemma unusable_interval_falls_back_to_default_witness :
  POLL_INTERVAL_MS (Samples.withInterval "fast") = 5000
  /\ (forall t, t < 1000 + 5000 ->
                step (boot (Samples.withInterval "fast") 1000) (Tick t) = None)
  /\ exists p, step (boot (Samples.withInterval "fast") 1000) (Tick (1000 + 5000)) = Some p
               /\ polls p.
Proof.
  apply (unusable_interval_falls_back_to_default (Samples.withInterval "fast") 1000).
  left. vm_compute. reflexivity.
Defined.

(** A negative interval is passed to the timer as it is, and the timer
    then runs with a delay of 1 ms. *)
Lemma negative_interval_polls_every_millisecond :
  POLL_INTERVAL_MS (Samples.withInterval "-5") = -5
  /\ timerRepeat (boot (Samples.withInterval "-5") 1000) = 1.
Proof. split; reflexivity. Qed.

End RunClaims.


(** ** The settings *)

Section SettingsFacts.

Import Js Bridge Settings.

Lemma orDefault_nonzero x d : d <> 0 -> orDefault x d <> 0.
Proof.
  intros Hd. destruct x as [[|n|n]|]; simpl; try exact Hd; discriminate.
Qed.

Lemma orDefault_number n d : n <> 0 -> orDefault (Some n) d = n.
Proof. intros Hn. destruct n; [congruence | reflexivity | reflexivity]. Qed.

(** A character that is not a decimal digit is no digit at all or a
    letter, whose value is 10 at least. *)
Lemma digitValue_not_decimal c d :
  isDecimalChar c = false -> digitValue c = Some d -> 10 <= d.
Proof.
  unfold isDecimalChar, digitValue. intros Hc.
  set (n := N_of_ascii c) in *.
  destruct ((48 <=? Z.of_N n) && (Z.of_N n <=? 57)) eqn:H1.
  - apply andb_true_iff in H1 as [Ha Hb]. apply Z.leb_le in Ha, Hb.
    apply andb_false_iff in Hc as [Hc|Hc]; apply N.leb_gt in Hc; lia.
  - destruct ((97 <=? Z.of_N n) && (Z.of_N n <=? 122)) eqn:H2.
    + apply andb_true_iff in H2 as [Ha _]. apply Z.leb_le in Ha.
      intros H. injection H as <-. lia.
    + destruct ((65 <=? Z.of_N n) && (Z.of_N n <=? 90)) eqn:H3; [|discriminate].
      apply andb_true_iff in H3 as [Ha _]. apply Z.leb_le in Ha.
      intros H. injection H as <-. lia.
Qed.

Lemma digitValue_decimal c :
  isDecimalChar c = true -> exists d, digitValue c = Some d /\ d < 10.
Proof.
  unfold isDecimalChar, digitValue. intros Hc.
  apply andb_true_iff in Hc as [Ha Hb]. apply N.leb_le in Ha, Hb.
  replace ((48 <=? Z.of_N (N_of_ascii c)) && (Z.of_N (N_of_ascii c) <=? 57)) with true
    by (symmetry; apply andb_true_iff; split; apply Z.leb_le; lia).
  eexists. split; [reflexivity | lia].
Qed.

(** Reading digits stops at the tail. *)
Lemma parseDigits_tail ds tail :
  allDecimal ds = true -> stopsNumber tail = true ->
  forall acc, parseDigits 10 (ds ++ tail) acc = parseDigits 10 ds acc.
Proof.
  intros Hds Htail. induction ds as [|c ds IH]; intros acc.
  - simpl. destruct tail as [|c rest]; [reflexivity|].
    simpl in Htail. apply andb_true_iff in Htail as [Htail _].
    apply andb_true_iff in Htail as [Hc _]. apply negb_true_iff in Hc.
    cbn [parseDigits]. destruct (digitValue c) as [d|] eqn:Hd; [|reflexivity].
    pose proof (digitValue_not_decimal c d Hc Hd).
    replace (d <? 10) with false by (symmetry; apply Z.ltb_ge; assumption).
    reflexivity.
  - simpl in Hds. apply andb_true_iff in Hds as [Hc Hds].
    cbn [append parseDigits]. destruct (digitValue c) as [d|]; [|reflexivity].
    destruct (d <? 10); [apply IH; exact Hds | reflexivity].
Qed.

Lemma hasHexPrefix_tail ds tail :
  ds <> EmptyString -> allDecimal ds = true -> stopsNumber tail = true ->
  hasHexPrefix (ds ++ tail) = false.
Proof.
  intros Hne Hds Htail. destruct ds as [|c0 [|c1 ds]]; [congruence| |].
  - destruct tail as [|c rest]; [reflexivity|]. simpl in Htail.
    apply andb_true_iff in Htail as [Htail HX].
    apply andb_true_iff in Htail as [_ Hx].
    apply negb_true_iff in Hx, HX. simpl. rewrite Hx, HX. apply andb_false_r.
  - simpl in Hds. apply andb_true_iff in Hds as [_ Hds].
    apply andb_true_iff in Hds as [Hc1 _]. simpl.
    rewrite (decimal_not_char c1 "x" Hc1 eq_refl), (decimal_not_char c1 "X" Hc1 eq_refl).
    apply andb_false_r.
Qed.

(** [parseInt] of the decimal rendering of an integer followed by such a
    tail is the integer. *)
Lemma parseIntString_number_tail n tail :
  stopsNumber tail = true -> parseIntString (numberToString n ++ tail) = Some n.
Proof.
  intros Htail. unfold numberToString.
  destruct (n <? 0) eqn:Hn.
  - apply Z.ltb_lt in Hn.
    set (ds := decimalDigits (digitsFuel (- n)) (- n) "").
    assert (Hne : ds <> EmptyString) by apply decimalDigits_nonempty.
    assert (Hall : allDecimal ds = true)
      by (apply decimalDigits_decimal; [lia | reflexivity]).
    assert (Hval : parseDigits 10 ds None = Some (- n)).
    { apply (parseDigits_decimalDigits _ (- n) ""). split; [lia|].
      apply (digitsFuel_enough (- n)). lia. }
    cbn [append]. unfold parseIntString. cbn [trimStart].
    change (isWhiteSpace "-") with false. cbv iota.
    change (Ascii.eqb "-" "-") with true. cbv iota.
    rewrite (hasHexPrefix_tail ds tail Hne Hall Htail).
    rewrite (parseDigits_tail ds tail Hall Htail), Hval. f_equal. lia.
  - apply Z.ltb_ge in Hn.
    set (ds := decimalDigits (digitsFuel n) n "").
    assert (Hne : ds <> EmptyString) by apply decimalDigits_nonempty.
    assert (Hall : allDecimal ds = true)
      by (apply decimalDigits_decimal; [lia | reflexivity]).
    assert (Hval : parseDigits 10 ds None = Some n).
    { apply (parseDigits_decimalDigits _ n ""). split; [lia|].
      apply (digitsFuel_enough n). lia. }
    destruct ds as [|c ds'] eqn:Eds; [congruence|].
    simpl in Hall. apply andb_true_iff in Hall as [Hc Hrest].
    assert (Hall : allDecimal (String c ds') = true)
      by (simpl; rewrite Hc, Hrest; reflexivity).
    unfold parseIntString. cbn [append trimStart].
    rewrite (decimal_not_white c Hc).
    rewrite (decimal_not_char c "-" Hc eq_refl), (decimal_not_char c "+" Hc eq_refl).
    change (String c (ds' ++ tail)) with (String c ds' ++ tail).
    rewrite (hasHexPrefix_tail (String c ds') tail Hne Hall Htail).
    rewrite (parseDigits_tail (String c ds') tail Hall Htail), Hval. f_equal. lia.
Qed.

(** X1. A setting that is the decimal rendering of a non-zero integer of
    magnitude at most 2^53 (the integers a Number holds exactly), followed
    by nothing or by text that does not continue the number, gives that
    integer, for the poll interval and for the port alike. *)
Theorem numeric_setting_reads_its_number env n tail :
  n <> 0 ->
  - 9007199254740992 <= n <= 9007199254740992 ->
  stopsNumber tail = true ->
  (env_POLL_INTERVAL_MS env = Some (numberToString n ++ tail) -> POLL_INTERVAL_MS env = n)
  /\ (env_EMBERPLUS_PORT env = Some (numberToString n ++ tail) -> EMBERPLUS_PORT env = n).
Proof.
  intros Hn _ Htail.
  split; intros Henv; unfold POLL_INTERVAL_MS, EMBERPLUS_PORT; rewrite Henv;
    unfold parseInt; cbn [envValue ToString];
    rewrite (parseIntString_number_tail n tail Htail); apply orDefault_number; exact Hn.
Qed.

Lemma numeric_setting_reads_its_number_witness :
  (env_POLL_INTERVAL_MS (Samples.withInterval "250ms") = Some (numberToString 250 ++ "ms")
   -> POLL_INTERVAL_MS (Samples.withInterval "250ms") = 250)
  /\ (env_EMBERPLUS_PORT (Samples.withInterval "250ms") = Some (numberToString 250 ++ "ms")
      -> EMBERPLUS_PORT (Samples.withInterval "250ms") = 250).
Proof.
  apply (numeric_setting_reads_its_number (Samples.withInterval "250ms") 250 "ms").
  - discriminate.
  - split; discriminate.
  - reflexivity.
Defined.

(** X2. Whatever the environment holds, neither the poll interval nor the
    port is zero, an unset variable gives the default (5000 and 9000), and
    the timer of the process runs with a delay within 1 .. 2^31-1 ms. *)
Theorem settings_are_never_zero env t0 :
  POLL_INTERVAL_MS env <> 0
  /\ EMBERPLUS_PORT env <> 0
  /\ (env_POLL_INTERVAL_MS env = None -> POLL_INTERVAL_MS env = 5000)
  /\ (env_EMBERPLUS_PORT env = None -> EMBERPLUS_PORT env = 9000)
  /\ 1 <= timerRepeat (boot env t0) <= 2147483647.
Proof.
  split; [apply orDefault_nonzero; discriminate|].
  split; [apply orDefault_nonzero; discriminate|].
  split; [intros H; unfold POLL_INTERVAL_MS; rewrite H; reflexivity|].
  split; [intros H; unfold EMBERPLUS_PORT; rewrite H; reflexivity|].
  cbn [boot timerRepeat]. unfold timerDelay.
  destruct ((1 <=? POLL_INTERVAL_MS env) && (POLL_INTERVAL_MS env <=? 2147483647)) eqn:H;
    [|lia].
  apply andb_true_iff in H as [Ha Hb]. apply Z.leb_le in Ha, Hb. lia.
Qed.

End SettingsFacts.


(** ** More about the callback *)

Section CallbackFacts.

Import Ember Bridge.

(** *** What the callback reads of an answer *)

Lemma eachKey_agree varbinds varbinds' key index store :
  option_map (fun vb => (Snmp.type vb, Snmp.value vb)) (nth_error varbinds index)
  = option_map (fun vb => (Snmp.type vb, Snmp.value vb)) (nth_error varbinds' index) ->
  eachKey varbinds key index store = eachKey varbinds' key index store.
Proof.
  intros H. unfold eachKey.
  destruct (nth_error varbinds index) as [vb|], (nth_error varbinds' index) as [vb'|];
    try discriminate H; [|reflexivity].
  cbn [option_map] in H. injection H as Htype Hvalue.
  unfold Snmp.isVarbindError. rewrite Htype, Hvalue. reflexivity.
Qed.

Lemma forEach_agree varbinds varbinds' keys :
  forall index store,
    (forall i, (index <= i < index + List.length keys)%nat ->
       option_map (fun vb => (Snmp.type vb, Snmp.value vb)) (nth_error varbinds i)
       = option_map (fun vb => (Snmp.type vb, Snmp.value vb)) (nth_error varbinds' i)) ->
    forEach (eachKey varbinds) keys index store
    = forEach (eachKey varbinds') keys index store.
Proof.
  induction keys as [|key rest IH]; intros index store H; [reflexivity|].
  cbn [forEach]. unfold bind.
  rewrite (eachKey_agree varbinds varbinds' key index store)
    by (apply H; cbn [List.length]; lia).
  destruct (eachKey varbinds' key index store) as [store1 [e|[]]]; [reflexivity|].
  apply IH. intros i Hi. apply H. cbn [List.length]. lia.
Qed.

(** X3. The callback of a successful read looks at the type and the value
    of the first nine items of the answer and at nothing else: two answers
    that agree there, whatever their OIDs and whatever follows, have the
    same effect.  Items are matched to keys by position, not by OID. *)
Theorem callback_reads_nine_items_by_position now varbinds varbinds' store :
  (forall i, (i < List.length (Object_keys oids))%nat ->
     option_map (fun vb => (Snmp.type vb, Snmp.value vb)) (nth_error varbinds i)
     = option_map (fun vb => (Snmp.type vb, Snmp.value vb)) (nth_error varbinds' i)) ->
  onGet now None varbinds store = onGet now None varbinds' store.
Proof.
  intros H. rewrite !onGet_success. apply forEach_agree.
  intros i Hi. apply H. lia.
Qed.

Lemma callback_reads_nine_items_by_position_witness :
  onGet 6040 None Samples.reading initialStore
  = onGet 6040 None MoreSamples.relabelled initialStore.
Proof.
  apply (callback_reads_nine_items_by_position
           6040 Samples.reading MoreSamples.relabelled initialStore).
  intros i Hi.
  do 9 (destruct i as [|i]; [reflexivity|]).
  cbn in Hi. exfalso. revert Hi. clear. intros Hi.
  do 9 (apply Nat.succ_lt_mono in Hi). inversion Hi.
Defined.

(** *** The loop over the keys, in two parts *)

Lemma forEach_app f l1 l2 :
  forall index store,
    forEach f (l1 ++ l2)%list index store =
      match forEach f l1 index store with
      | (store1, inr _) => forEach f l2 (index + List.length l1) store1
      | (store1, inl e) => (store1, inl e)
      end.
Proof.
  induction l1 as [|key rest IH]; intros index store.
  - cbn. rewrite Nat.add_0_r. reflexivity.
  - cbn [app forEach List.length]. unfold bind.
    destruct (f key index store) as [store1 [e|[]]]; [reflexivity|].
    rewrite IH, Nat.add_succ_r. reflexivity.
Qed.

Lemma NoDup_app_disjoint {A} (a b : list A) x :
  NoDup (a ++ b)%list -> In x a -> In x b -> False.
Proof.
  induction a as [|y a IH]; intros Hnd Ha Hb; [contradiction|].
  inversion Hnd as [|? ? Hnotin Hnd']; subst. destruct Ha as [->|Ha].
  - apply Hnotin. apply in_or_app. right. exact Hb.
  - exact (IH Hnd' Ha Hb).
Qed.

Lemma NoDup_app_left {A} (a b : list A) : NoDup (a ++ b)%list -> NoDup a.
Proof.
  induction a as [|y a IH]; intros Hnd; [constructor|].
  inversion Hnd as [|? ? Hnotin Hnd']; subst. constructor.
  - intros H. apply Hnotin. apply in_or_app. left. exact H.
  - exact (IH Hnd').
Qed.

Lemma status_writes_keep_leaves now store key node :
  In (key, node) leafOf ->
  fst (server_update lastPollParameterNode (Js.Str (Js.toISOString now))
         (fst (server_update connectedParameterNode (Js.Bool true) store))) node
  = store node.
Proof.
  intros Hin. rewrite !server_update_other; [reflexivity| |];
    intros ->; simpl in Hin; intuition discriminate.
Qed.

(** X5. When the item of key [j] is a raw value whose decoding raises (a
    String key with a value that has no [toString]) and the items before it
    are error markers or decode, the callback ends with that exception: the
    connected leaf is [true] and the timestamp set, the leaves of the keys
    before [j] hold their outcome, and the leaf of key [j] and of every
    later key keeps the state it had. *)
Theorem raising_item_ends_the_loop now varbinds j key node varbind e store :
  nth_error leafOf j = Some (key, node) ->
  nth_error varbinds j = Some varbind ->
  Snmp.isVarbindError varbind = false ->
  decode (declaredType node) (Snmp.value varbind) = inl e ->
  (forall i key' node',
     (i < j)%nat -> nth_error leafOf i = Some (key', node') ->
     exists vb, nth_error varbinds i = Some vb
       /\ (Snmp.isVarbindError vb = true
           \/ exists v, decode (declaredType node') (Snmp.value vb) = inr v)) ->
  exists store',
    onGet now None varbinds store = (store', inl e)
    /\ valueOf store' connectedParameterNode = Js.Bool true
    /\ valueOf store' lastPollParameterNode = Js.Str (Js.toISOString now)
    /\ (forall i key' node',
          (j <= i)%nat -> nth_error leafOf i = Some (key', node') ->
          store' node' = store node')
    /\ (forall i key' node' vb,
          (i < j)%nat -> nth_error leafOf i = Some (key', node') ->
          nth_error varbinds i = Some vb ->
          store' node' =
            if Snmp.isVarbindError vb then store node'
            else match decode (declaredType node') (Snmp.value vb) with
                 | inr v => setValue v (store node')
                 | inl _ => store node'
                 end).
Proof.
  intros Hj Hvb Herr Hdec Hbefore.
  destruct (nth_error_split leafOf j Hj) as (l1 & l2 & Hsplit & Hlen).
  pose proof leafOf_NoDup as Hnd. rewrite Hsplit, map_app in Hnd.
  assert (Hincl : incl l1 leafOf).
  { intros q Hq. rewrite Hsplit. apply in_or_app. left. exact Hq. }
  assert (Hl1 : forall i, (i < j)%nat -> nth_error leafOf i = nth_error l1 i).
  { intros i Hi. rewrite Hsplit. apply nth_error_app1. lia. }
  pose proof (onGet_success_status now varbinds store) as [Hconn Hlast].
  rewrite onGet_success in *. rewrite leafOf_keys in *.
  set (store2 := fst (server_update lastPollParameterNode _ _)) in *.
  destruct (forEach_leaves varbinds l1 0 store2 Hincl (NoDup_app_left _ _ Hnd))
    as (store1 & Hrun & Hframe & Hleaves).
  { intros i key' node' Hi.
    assert (Hlt : (i < j)%nat) by (rewrite <- Hlen; apply nth_error_Some; congruence).
    apply (Hbefore i key' node' Hlt). rewrite (Hl1 i Hlt). exact Hi. }
  assert (Hall : forEach (eachKey varbinds) (map fst leafOf) 0 store2 = (store1, inl e)).
  { rewrite Hsplit at 1. rewrite map_app, forEach_app, Hrun. cbn [map forEach fst].
    unfold bind. rewrite length_map, Hlen. cbn [Nat.add].
    rewrite (eachKey_leaf varbinds key node j varbind store1 (nth_error_In _ _ Hj) Hvb).
    rewrite Herr, Hdec. reflexivity. }
  exists store1. rewrite Hall in Hconn, Hlast.
  split; [exact Hall|]. split; [exact Hconn|]. split; [exact Hlast|]. split.
  - intros i key' node' Hi Hq.
    assert (Hin : In (key', node') leafOf) by exact (nth_error_In _ _ Hq).
    rewrite Hframe; [exact (status_writes_keep_leaves now store key' node' Hin)|].
    intros Hin1. apply (NoDup_app_disjoint _ _ node' Hnd Hin1).
    rewrite Hsplit in Hq. rewrite nth_error_app2 in Hq by lia.
    apply nth_error_In in Hq. change (node :: map snd l2) with (map snd ((key, node) :: l2)).
    apply (in_map snd _ (key', node')). exact Hq.
  - intros i key' node' vb Hi Hq Hv.
    rewrite (Hl1 i Hi) in Hq.
    rewrite (Hleaves i key' node' vb Hq Hv).
    assert (Hin : In (key', node') leafOf) by (apply Hincl; exact (nth_error_In _ _ Hq)).
    unfold store2. rewrite (status_writes_keep_leaves now store key' node' Hin).
    reflexivity.
Qed.

Lemma raising_item_ends_the_loop_witness :
  exists store',
    onGet 6040 None MoreSamples.nullStationName initialStore
    = (store', inl (Js.TypeError "Cannot read properties of null"))
    /\ valueOf store' connectedParameterNode = Js.Bool true
    /\ valueOf store' softwareVersionParameterNode = Js.Str "2.1.0"
    /\ valueOf store' stationNameParameterNode = Js.Str ""
    /\ valueOf store' inputAnalogParameterNode = Js.Bool false.
Proof.
  destruct (raising_item_ends_the_loop
              6040 MoreSamples.nullStationName 1 "stationName" stationNameParameterNode
              (Samples.null "1.3.6.1.4.1.41877.5.1.2")
              (Js.TypeError "Cannot read properties of null") initialStore
              eq_refl eq_refl eq_refl eq_refl)
    as (store' & Hrun & Hconn & _ & Hlater & Hbefore).
  { intros i key' node' Hi Hq. destruct i as [|i]; [|exfalso; inversion Hi as [|? H0]; inversion H0].
    injection Hq as <- <-. eexists. split; [reflexivity|]. right. eexists. reflexivity. }
  exists store'. split; [exact Hrun|]. split; [exact Hconn|]. split; [|split].
  - unfold valueOf.
    rewrite (Hbefore 0%nat "softwareVersion" softwareVersionParameterNode
               (Samples.octets "1.3.6.1.4.1.41877.5.1.1" "2.1.0")
               (le_n 1) eq_refl eq_refl).
    reflexivity.
  - unfold valueOf.
    rewrite (Hlater 1%nat "stationName" stationNameParameterNode (le_n 1) eq_refl).
    reflexivity.
  - unfold valueOf.
    rewrite (Hlater 2%nat "inputAnalog" inputAnalogParameterNode (le_S _ _ (le_n 1)) eq_refl).
    reflexivity.
Defined.

(** *** The updates of a cycle *)

Lemma eachKey_updates varbinds key index store :
  exists us,
    updates (fst (eachKey varbinds key index store)) = (updates store ++ us)%list
    /\ (List.length us <= 1)%nat
    /\ Forall (fun u => In (fst u) (map snd leafOf)) us.
Proof.
  assert (Hnone : exists us,
             updates store = (updates store ++ us)%list
             /\ (List.length us <= 1)%nat
             /\ Forall (fun u => In (fst u) (map snd leafOf)) us).
  { exists []. rewrite app_nil_r. repeat split; [cbn; lia | constructor]. }
  assert (Hone : forall node v,
             In node (map snd leafOf) ->
             exists us,
               updates (fst (server_update node v store)) = (updates store ++ us)%list
               /\ (List.length us <= 1)%nat
               /\ Forall (fun u => In (fst u) (map snd leafOf)) us).
  { intros node v Hin. exists [(node, v)]. split; [reflexivity|].
    split; [cbn; lia|]. constructor; [exact Hin | constructor]. }
  unfold eachKey.
  destruct (nth_error varbinds index) as [varbind|]; [|exact Hnone].
  destruct (Snmp.isVarbindError varbind); [exact Hnone|].
  repeat match goal with
         | |- context [if String.eqb key ?k then _ else _] => destruct (String.eqb key k)
         end;
    first
      [ exact Hnone
      | apply Hone; cbn; tauto
      | unfold bind, lift; destruct (Js.toStringMethod (Snmp.value varbind));
        [exact Hnone | apply Hone; cbn; tauto] ].
Qed.

Lemma forEach_updates varbinds keys :
  forall index store,
    exists us,
      updates (fst (forEach (eachKey varbinds) keys index store))
      = (updates store ++ us)%list
      /\ (List.length us <= List.length keys)%nat
      /\ Forall (fun u => In (fst u) (map snd leafOf)) us.
Proof.
  induction keys as [|key rest IH]; intros index store.
  - exists []. cbn. rewrite app_nil_r. repeat split; [lia | constructor].
  - cbn [forEach]. unfold bind.
    destruct (eachKey_updates varbinds key index store) as (us1 & H1 & Hlen1 & Hin1).
    destruct (eachKey varbinds key index store) as [store1 [e|[]]]; cbn [fst] in *.
    + exists us1. split; [exact H1|]. split; [cbn [List.length]; lia | exact Hin1].
    + destruct (IH (S index) store1) as (us2 & H2 & Hlen2 & Hin2).
      exists (us1 ++ us2)%list. rewrite H2, H1, app_assoc.
      split; [reflexivity|]. split.
      * rewrite length_app. cbn [List.length]. lia.
      * apply Forall_app. split; assumption.
Qed.

(** X6. A successful read gives the server the update of the connected
    leaf to [true] first, the update of the timestamp second, and then at
    most one update for each key, to leaves of the keys only; the two
    status leaves are not updated again. *)
Theorem successful_read_updates now varbinds store :
  exists us,
    updates (fst (onGet now None varbinds store))
    = (updates store
       ++ (connectedParameterNode, Js.Bool true)
          :: (lastPollParameterNode, Js.Str (Js.toISOString now)) :: us)%list
    /\ (List.length us <= List.length (Object_keys oids))%nat
    /\ Forall (fun u => In (fst u) (map snd leafOf)
                        /\ fst u <> connectedParameterNode
                        /\ fst u <> lastPollParameterNode) us.
Proof.
  rewrite onGet_success.
  set (store2 := fst (server_update lastPollParameterNode _ _)).
  destruct (forEach_updates varbinds (Object_keys oids) 0 store2) as (us & Hus & Hlen & Hin).
  exists us. rewrite Hus. split.
  - unfold store2, server_update. cbn [fst updates tabulate].
    rewrite <- !app_assoc. reflexivity.
  - split; [exact Hlen|]. apply Forall_forall. intros [node v] Hu.
    pose proof (proj1 (Forall_forall _ _) Hin (node, v) Hu) as Hleaf.
    cbn [fst] in *.
    split; [exact Hleaf|]. split; intros ->; cbn in Hleaf; intuition discriminate.
Qed.

(** X7. In a successful read with one item for each key, each of them an
    error marker or a raw value that decodes, every key is treated on its
    own: the callback completes normally, the leaf of a key with an error
    marker keeps its state, and the leaf of every other key holds its
    decoded value, however many markers there are. *)
Theorem every_key_has_its_own_outcome now varbinds store :
  List.length varbinds = List.length leafOf ->
  (forall j key node varbind,
     nth_error leafOf j = Some (key, node) -> nth_error varbinds j = Some varbind ->
     Snmp.isVarbindError varbind = true
     \/ exists v, decode (declaredType node) (Snmp.value varbind) = inr v) ->
  exists store',
    onGet now None varbinds store = (store', inr tt)
    /\ forall j key node varbind,
         nth_error leafOf j = Some (key, node) -> nth_error varbinds j = Some varbind ->
         store' node =
           if Snmp.isVarbindError varbind then store node
           else match decode (declaredType node) (Snmp.value varbind) with
                | inr v => setValue v (store node)
                | inl _ => store node
                end.
Proof.
  intros Hlen Hitems. rewrite onGet_success, leafOf_keys.
  set (store2 := fst (server_update lastPollParameterNode _ _)).
  destruct (forEach_leaves varbinds leafOf 0 store2 (incl_refl _) leafOf_NoDup)
    as (store' & Hrun & _ & Hleaves).
  { intros j key node Hj.
    assert (Hlt : (j < List.length varbinds)%nat)
      by (rewrite Hlen; apply nth_error_Some; congruence).
    destruct (nth_error varbinds j) as [varbind|] eqn:Hvb;
      [|apply nth_error_Some in Hlt; congruence].
    exists varbind. split; [exact Hvb|]. exact (Hitems j key node varbind Hj Hvb). }
  exists store'. split; [exact Hrun|].
  intros j key node varbind Hj Hvb.
  rewrite (Hleaves j key node varbind Hj Hvb).
  unfold store2.
  rewrite (status_writes_keep_leaves now store key node (nth_error_In _ _ Hj)).
  reflexivity.
Qed.

Lemma every_key_has_its_own_outcome_witness :
  exists store',
    onGet 6040 None MoreSamples.markersOnly initialStore = (store', inr tt)
    /\ forall j key node varbind,
         nth_error leafOf j = Some (key, node) ->
         nth_error MoreSamples.markersOnly j = Some varbind ->
         store' node =
           if Snmp.isVarbindError varbind then initialStore node
           else match decode (declaredType node) (Snmp.value varbind) with
                | inr v => setValue v (initialStore node)
                | inl _ => initialStore node
                end.
Proof.
  apply (every_key_has_its_own_outcome 6040 MoreSamples.markersOnly initialStore).
  - reflexivity.
  - intros j key node varbind Hq H.
    do 9 (destruct j as [|j];
          [injection H as <-; injection Hq as <- <-;
           first [left; reflexivity | right; eexists; reflexivity]|]).
    destruct j; discriminate H.
Defined.

End CallbackFacts.


(** ** More about a run *)

Section RunFacts.

Import Ember Bridge Published.

(** *** The schedule *)

Lemma complete_length k t cs cs' :
  complete k t cs = Some cs' -> List.length cs' = List.length cs.
Proof.
  intros H. apply complete_started in H.
  rewrite <- (length_map started cs'), H. apply length_map.
Qed.

Lemma run_schedule env t0 trace p :
  run (boot env t0) trace = Some p ->
  timerRepeat p = timerDelay (POLL_INTERVAL_MS env)
  /\ t0 <= clock p
  /\ t0 + (Z.of_nat (List.length (cycles p)) + 1) * timerRepeat p <= timerDue p
  /\ forall k s, startOf p k = Some s ->
                 t0 + (Z.of_nat k + 1) * timerRepeat p <= s <= clock p.
Proof.
  apply (run_invariant
           (fun q => timerRepeat q = timerDelay (POLL_INTERVAL_MS env)
                     /\ t0 <= clock q
                     /\ t0 + (Z.of_nat (List.length (cycles q)) + 1) * timerRepeat q
                        <= timerDue q
                     /\ forall k s, startOf q k = Some s ->
                                    t0 + (Z.of_nat k + 1) * timerRepeat q <= s <= clock q)).
  - intros q e q' (Hrep & Hclock & Hdue & Hstarts) Hstep.
    pose proof (timerDelay_positive (POLL_INTERVAL_MS env)) as Hpos.
    rewrite <- Hrep in Hpos.
    destruct e as [t|k t error varbinds].
    + apply step_Tick in Hstep as (_ & Hc & Ht & ->).
      cbn [timerRepeat clock timerDue cycles].
      split; [exact Hrep|]. split; [lia|]. split.
      * rewrite length_app. cbn [List.length]. rewrite Nat2Z.inj_add. cbn. nia.
      * intros j s Hj. rewrite startOf_map in Hj. cbn [cycles] in Hj.
        rewrite map_app in Hj. apply nth_error_snoc in Hj as [Hj|[Hlen ->]].
        -- rewrite <- startOf_map in Hj. specialize (Hstarts j s Hj). lia.
        -- rewrite length_map in Hlen. subst j. cbn [started pollOptimod]. lia.
    + apply step_Response in Hstep as (_ & Hc & cycles' & Hcomplete & ->).
      cbn [timerRepeat clock timerDue cycles].
      rewrite (complete_length _ _ _ _ Hcomplete).
      split; [exact Hrep|]. split; [lia|]. split; [exact Hdue|].
      intros j s Hj. rewrite startOf_map in Hj. cbn [cycles] in Hj.
      rewrite (complete_started _ _ _ _ Hcomplete), <- startOf_map in Hj.
      specialize (Hstarts j s Hj). lia.
  - cbn [boot timerRepeat clock timerDue cycles List.length].
    split; [reflexivity|]. split; [lia|]. split; [lia|].
    intros [|k] s H; discriminate H.
Qed.

(** X8. The polling rate is bounded by the timer delay: in every run of a
    process started at [t0], cycle [k] (counted from 0) starts no sooner
    than [k+1] delays after [t0], so the number of cycles started so far
    times the delay is at most the time that has passed since [t0]. *)
Theorem polling_rate_is_bounded env t0 trace p :
  run (boot env t0) trace = Some p ->
  (forall k s, startOf p k = Some s ->
               t0 + (Z.of_nat k + 1) * timerDelay (POLL_INTERVAL_MS env) <= s)
  /\ Z.of_nat (List.length (cycles p)) * timerDelay (POLL_INTERVAL_MS env)
     <= clock p - t0.
Proof.
  intros Hrun. destruct (run_schedule _ _ _ _ Hrun) as (Hrep & Hclock & _ & Hstarts).
  rewrite Hrep in Hstarts. split.
  - intros k s Hk. specialize (Hstarts k s Hk). lia.
  - destruct (cycles p) as [|c cs] eqn:Hcycles using rev_ind; [cbn; lia|].
    clear IHcs. rewrite length_app. cbn [List.length].
    specialize (Hstarts (List.length cs) (started c)).
    unfold startOf in Hstarts. rewrite Hcycles in Hstarts.
    rewrite nth_error_app2, Nat.sub_diag in Hstarts by lia.
    specialize (Hstarts eq_refl). lia.
Qed.

Lemma polling_rate_is_bounded_witness :
  exists p,
    run (boot Samples.defaults 1000) Samples.overlapping = Some p
    /\ (forall k s, startOf p k = Some s ->
                    1000 + (Z.of_nat k + 1) * timerDelay (POLL_INTERVAL_MS Samples.defaults)
                    <= s)
    /\ Z.of_nat (List.length (cycles p)) * timerDelay (POLL_INTERVAL_MS Samples.defaults)
       <= clock p - 1000.
Proof.
  eexists. split; [vm_compute; reflexivity|].
  apply (polling_rate_is_bounded Samples.defaults 1000 Samples.overlapping).
  vm_compute. reflexivity.
Defined.

End RunFacts.


(** ** The tree and the variables share the parameter nodes *)

Section PublishedFacts.

Import Ember Bridge Published.

Lemma run_numbers env t0 trace p :
  run (boot env t0) trace = Some p -> forall node, number (store p node) = 1.
Proof.
  intros Hrun node. rewrite (run_onlyValues trace _ _ Hrun node).
  destruct node; reflexivity.
Qed.

Lemma published_shows_nodes (s : Store) :
  (forall node, number (s node) = 1) ->
  forall node,
    exists p,
      pathTo s node = Some p
      /\ publishedAt s p = Some (valueOf s node)
      /\ forall v,
           publishedAt (fst (server_update node v s)) p = Some v
           /\ forall other p',
                other <> node -> pathTo s other = Some p' ->
                publishedAt (fst (server_update node v s)) p' = publishedAt s p'.
Proof.
  intros Hnum.
  pose proof (Hnum softwareVersionParameterNode) as H0.
  pose proof (Hnum stationNameParameterNode) as H1.
  pose proof (Hnum inputAnalogParameterNode) as H2.
  pose proof (Hnum inputDigitalParameterNode) as H3.
  pose proof (Hnum analogInputSilentParameterNode) as H4.
  pose proof (Hnum aesInputSilentParameterNode) as H5.
  pose proof (Hnum aesInputErrorParameterNode) as H6.
  pose proof (Hnum powerSupply1StatusParameterNode) as H7.
  pose proof (Hnum powerSupply2StatusParameterNode) as H8.
  pose proof (Hnum connectedParameterNode) as H9.
  pose proof (Hnum lastPollParameterNode) as H10.
  clear Hnum.
  destruct s as [[n0 c0] [n1 c1] [n2 c2] [n3 c3] [n4 c4] [n5 c5] [n6 c6] [n7 c7] [n8 c8]
                 [n9 c9] [n10 c10] log].
  cbn in H0, H1, H2, H3, H4, H5, H6, H7, H8, H9, H10. subst.
  intros node.
  destruct node; (eexists; split; [reflexivity|]; split; [reflexivity|];
    intros v; split; [reflexivity|];
    intros other p' Hne Hp;
    destruct other; try congruence;
    cbv in Hp; injection Hp as <-; reflexivity).
Qed.

(** X10. The tree holds the very parameter nodes that the callback
    updates.  In every state a run reaches, each parameter node is
    published under a path of the tree, a client reads the node's current
    value there, an update of the node is read there at once, and the update
    changes what is read at the path of no other parameter node. *)
Theorem tree_publishes_every_update env t0 trace p node :
  run (boot env t0) trace = Some p ->
  exists path,
    pathTo (store p) node = Some path
    /\ publishedAt (store p) path = Some (valueOf (store p) node)
    /\ forall v,
         publishedAt (fst (server_update node v (store p))) path = Some v
         /\ forall other path',
              other <> node -> pathTo (store p) other = Some path' ->
              publishedAt (fst (server_update node v (store p))) path'
              = publishedAt (store p) path'.
Proof.
  intros Hrun. apply published_shows_nodes. exact (run_numbers _ _ _ _ Hrun).
Qed.

Lemma tree_publishes_every_update_witness :
  exists p,
    run (boot Samples.defaults 1000) Samples.thenFailing = Some p
    /\ pathTo (store p) inputAnalogParameterNode = Some [1; 2; 1; 1]
    /\ publishedAt (store p) [1; 2; 1; 1] = Some (Js.Bool true).
Proof.
  eexists. split; [vm_compute; reflexivity|].
  destruct (tree_publishes_every_update
              Samples.defaults 1000 Samples.thenFailing _ inputAnalogParameterNode
              ltac:(vm_compute; reflexivity))
    as (path & Hpath & Hread & _).
  assert (Hat : path = [1; 2; 1; 1]) by (vm_compute in Hpath; congruence).
  rewrite Hat in Hpath, Hread.
  split; [exact Hpath|]. rewrite Hread. vm_compute. reflexivity.
Defined.

End PublishedFacts.


(** ** Textual readings and cycles without success *)

Section MoreDecoding.

Import Ember Bridge.

(** X11. A Boolean-kind quantity read as text decodes like the number the
    text starts with: for a string or buffer payload that is the decimal
    rendering of an integer [n], followed by nothing or by text that does
    not continue the number, the leaf is written [n = 1]. *)
Theorem textual_numeral_decodes_like_its_number
        key node varbinds index varbind store n tail :
  In (key, node) leafOf ->
  declaredType node = ParameterType_Boolean ->
  nth_error varbinds index = Some varbind ->
  Snmp.isVarbindError varbind = false ->
  Settings.stopsNumber tail = true ->
  Snmp.value varbind = Js.Str (Js.numberToString n ++ tail)
  \/ Snmp.value varbind = Js.Buffer (Js.numberToString n ++ tail) ->
  eachKey varbinds key index store = server_update node (Js.Bool (n =? 1)) store.
Proof.
  intros Hin Htype Hnth Herr Htail Hvalue.
  rewrite (eachKey_leaf _ _ _ _ _ _ Hin Hnth), Herr, Htype. cbn [decode].
  assert (Hparse : Js.parseInt (Snmp.value varbind) = Some n).
  { unfold Js.parseInt. destruct Hvalue as [-> | ->]; cbn [Js.ToString];
      apply parseIntString_number_tail; exact Htail. }
  rewrite Hparse. reflexivity.
Qed.

Lemma textual_numeral_decodes_like_its_number_witness :
  eachKey [Samples.octets "1.3.6.1.4.1.41877.5.3.1" "1 (active)"] "inputAnalog" 0 initialStore
  = server_update inputAnalogParameterNode (Js.Bool (1 =? 1)) initialStore.
Proof.
  apply (textual_numeral_decodes_like_its_number
           "inputAnalog" inputAnalogParameterNode
           [Samples.octets "1.3.6.1.4.1.41877.5.3.1" "1 (active)"] 0
           (Samples.octets "1.3.6.1.4.1.41877.5.3.1" "1 (active)") initialStore
           1 " (active)").
  - simpl. tauto.
  - reflexivity.
  - reflexivity.
  - reflexivity.
  - reflexivity.
  - right. reflexivity.
Defined.

(** X12. The tree keeps its last good readings: over any stretch of a run
    in which no batch read succeeds, however many cycles start and fail,
    every node but the connected leaf keeps its state, the timestamp leaf
    included. *)
Theorem leaves_are_frozen_without_success trace :
  forall p p',
    run p trace = Some p' ->
    Forall (fun e => match e with
                     | Response _ _ None _ => False
                     | _ => True
                     end) trace ->
    forall node, node <> connectedParameterNode -> store p' node = store p node.
Proof.
  induction trace as [|e rest IH]; intros p p' Hrun Hfail node Hnode.
  - injection Hrun as <-. reflexivity.
  - simpl in Hrun. destruct (step p e) as [p1|] eqn:Hstep; [|discriminate].
    inversion Hfail as [|? ? He Hrest]; subst.
    rewrite (IH p1 p' Hrun Hrest node Hnode).
    destruct e as [t|k t [err|] varbinds]; [| |contradiction].
    + apply step_Tick in Hstep as (_ & _ & _ & ->). reflexivity.
    + apply step_Response in Hstep as (_ & _ & cycles' & _ & ->). cbn [store].
      rewrite onGet_failure. apply server_update_other. exact Hnode.
Qed.

Lemma leaves_are_frozen_without_success_witness :
  exists p p',
    run (boot Samples.defaults 1000) [Tick 6000; Response 0 6040 None Samples.reading]
    = Some p
    /\ run p [Tick 11000; Tick 16000; Response 1 21000 (Some "RequestTimedOutError") [];
              Response 2 26000 (Some "RequestTimedOutError") []] = Some p'
    /\ forall node, node <> connectedParameterNode -> store p' node = store p node.
Proof.
  eexists. eexists. split; [vm_compute; reflexivity|]. split; [vm_compute; reflexivity|].
  apply (leaves_are_frozen_without_success
           [Tick 11000; Tick 16000; Response 1 21000 (Some "RequestTimedOutError") [];
            Response 2 26000 (Some "RequestTimedOutError") []]).
  - vm_compute. reflexivity.
  - repeat constructor.
Defined.

End MoreDecoding.



(** ** A String-kind reading without a textual form *)

Section NullReading.

Import Ember Bridge.

(** C7, at the failing input.  A successful answer whose item for
    [softwareVersion] is a varbind of type Null, which is no error marker
    and has the raw value [null]: the callback does not write the textual
    representation of the raw value (["null"]) to the leaf; at
    [value.toString()] it raises a [TypeError], and none of the leaves of
    the keys is written, the eight well-formed readings behind it
    included.  The Boolean decode of the same raw value completes and
    writes [false]. *)
Theorem null_string_reading_is_not_written now store :
  Snmp.isVarbindError (Samples.null "1.3.6.1.4.1.41877.5.1.1") = false
  /\ Js.ToString Js.Null = "null"
  /\ snd (onGet now None MoreSamples.nullSoftwareVersion store)
     = inl (Js.TypeError "Cannot read properties of null")
  /\ Forall (fun q => fst (onGet now None MoreSamples.nullSoftwareVersion store) (snd q)
                      = store (snd q)) leafOf
  /\ decode ParameterType_Boolean Js.Null = inr (Js.Bool false).
Proof.
  split; [reflexivity|]. split; [reflexivity|].
  assert (Hrun : onGet now None MoreSamples.nullSoftwareVersion store
                 = (fst (server_update lastPollParameterNode (Js.Str (Js.toISOString now))
                           (fst (server_update connectedParameterNode (Js.Bool true) store))),
                    inl (Js.TypeError "Cannot read properties of null"))).
  { rewrite onGet_success. cbn [Object_keys oids map fst forEach]. unfold bind at 1.
    rewrite (eachKey_leaf MoreSamples.nullSoftwareVersion "softwareVersion"
               softwareVersionParameterNode 0
               (Samples.null "1.3.6.1.4.1.41877.5.1.1"));
      [reflexivity | simpl; tauto | reflexivity]. }
  rewrite Hrun. cbn [fst snd]. split; [reflexivity|]. split; [|reflexivity].
  apply Forall_forall. intros [key node] Hin. cbn [snd].
  apply (status_writes_keep_leaves now store key node Hin).
Qed.

End NullReading.
